(** * SpendLens: a shallow embedding of [src/models.py] and [src/logic.py]

    The development follows the Python sources class by class:
    - [Text]: the [str] methods and the regular expression used by the parser;
    - [PyFloat]: Python's [float], i.e. IEEE-754 binary64, on Rocq's primitive
      floats, with [float(s)] for the decimal numerals the parser extracts;
    - [Datetime]: [datetime] with [strftime] and [strptime] for [%Y-%m-%d];
    - [Models]: [Expense], [CategoryTotal], [ParsedExpense];
    - [PyList]: [list.sort], as CPython 3.11 runs it on a short list;
    - [ExpenseParser], [ExcelStorage], [ExpenseAnalyzer], [ExpenseController].

    The interpreter is CPython 3.11 on Linux (glibc).  Text is ASCII
    ([string] of 8-bit characters).  Libraries the repository imports but
    does not contain (word2number, dateparser, pandas/openpyxl) are
    parameters of the sections that use them, and so is [list.sort] on lists
    of 64 items or more.

    The definitions come first; [Statements] and [Examples] hold the
    vocabulary and the inputs of the theorems, which follow: [AmountSpec] and
    [DateSpec] for the parser, [AnalyzerSpec] for the aggregator,
    [StorageSpec] for the storage and the controller, then [ParserExtra],
    [AnalyzerExtra] and [StorageExtra] for the functions around them. *)

From Stdlib Require Import Bool Arith ZArith List String Ascii Lia.
From Stdlib Require Import Permutation Sorted.
From Stdlib Require Import Floats.
Import ListNotations.

#[local] Set Warnings "-inexact-float,-abstract-large-number,-notation-for-abbreviation".

Local Open Scope string_scope.
Local Open Scope list_scope.

(** A Python call either returns or raises; [except Exception] handlers match
    on [Raise]. *)
Inductive result (A : Type) : Type :=
| Ok (a : A)
| Raise.
Arguments Ok {A} a.
Arguments Raise {A}.

Definition bind {A B : Type} (r : result A) (f : A -> result B) : result B :=
  match r with
  | Ok a => f a
  | Raise => Raise
  end.

Notation "x <- r ;; k" := (bind r (fun x => k))
  (at level 61, r at next level, right associativity).

(** [[f(x) for x in xs]]: the first element that raises aborts the whole
    comprehension. *)
Fixpoint traverse {A B : Type} (f : A -> result B) (xs : list A) : result (list B) :=
  match xs with
  | [] => Ok []
  | x :: xs' => y <- f x ;; ys <- traverse f xs' ;; Ok (y :: ys)
  end.

(* ================================================================== *)
(** * Strings and the amount pattern *)

Module Text.

Definition is_digit (c : ascii) : bool :=
  let n := nat_of_ascii c in ((48 <=? n) && (n <=? 57))%nat.

Definition is_upper (c : ascii) : bool :=
  let n := nat_of_ascii c in ((65 <=? n) && (n <=? 90))%nat.

Definition is_lower (c : ascii) : bool :=
  let n := nat_of_ascii c in ((97 <=? n) && (n <=? 122))%nat.

(** [\w] on ASCII text: letters, digits and the underscore. *)
Definition is_word (c : ascii) : bool :=
  is_digit c || is_upper c || is_lower c || Ascii.eqb c "_".

Definition lower_char (c : ascii) : ascii :=
  if is_upper c then ascii_of_nat (nat_of_ascii c + 32) else c.

Definition upper_char (c : ascii) : ascii :=
  if is_lower c then ascii_of_nat (nat_of_ascii c - 32) else c.

(** [s.lower()] and [s.upper()]. *)
Fixpoint lower (s : string) : string :=
  match s with
  | EmptyString => EmptyString
  | String c s' => String (lower_char c) (lower s')
  end.

Fixpoint upper (s : string) : string :=
  match s with
  | EmptyString => EmptyString
  | String c s' => String (upper_char c) (upper s')
  end.

(** [s.replace(c, <empty>)] for a one-character [c]: every occurrence goes. *)
Fixpoint remove_char (c : ascii) (s : string) : string :=
  match s with
  | EmptyString => EmptyString
  | String d s' => if Ascii.eqb d c then remove_char c s' else String d (remove_char c s')
  end.

(** [s.startswith(p)] and [p in s]. *)
Fixpoint starts_with (p s : string) : bool :=
  match p, s with
  | EmptyString, _ => true
  | String a p', String b s' => Ascii.eqb a b && starts_with p' s'
  | String _ _, EmptyString => false
  end.

Fixpoint contains (p s : string) : bool :=
  starts_with p s ||
  match s with
  | EmptyString => false
  | String _ s' => contains p s'
  end.

(** Truthiness of a [str]: [not text] holds exactly for the empty string. *)
Definition is_empty (s : string) : bool :=
  match s with
  | EmptyString => true
  | String _ _ => false
  end.

Fixpoint all_chars (p : ascii -> bool) (s : string) : bool :=
  match s with
  | EmptyString => true
  | String c s' => p c && all_chars p s'
  end.

Fixpoint any_char (p : ascii -> bool) (s : string) : bool :=
  match s with
  | EmptyString => false
  | String c s' => p c || any_char p s'
  end.

(** ** A backtracking matcher for the constructs the amount pattern uses

    The matcher is written in continuation-passing style, as a backtracking
    engine runs: [k] receives the character before the current position and
    the rest of the subject, and answers with the rest left after the whole
    match; a [None] makes the construct try its next alternative. *)
Inductive regex : Type :=
| Bnd                            (* \b *)
| Chr (p : ascii -> bool)        (* one character of a class *)
| Cat (r1 r2 : regex)            (* r1 r2 *)
| Opt (r : regex)                (* (?:r)?  greedy *)
| Plus (p : ascii -> bool).      (* c+      greedy *)

Definition word_before (prev : option ascii) : bool :=
  match prev with
  | Some c => is_word c
  | None => false
  end.

Definition word_after (s : string) : bool :=
  match s with
  | String c _ => is_word c
  | EmptyString => false
  end.

(** [\b]: exactly one side of the position is a word character. *)
Definition at_boundary (prev : option ascii) (s : string) : bool :=
  xorb (word_before prev) (word_after s).

Definition cont : Type := option ascii -> string -> option string.

(** The rest of [c+] once one character ([prev]) has been taken: take one
    more when possible, and give it back when the continuation fails. *)
Fixpoint plus_more (p : ascii -> bool) (prev : ascii) (s : string) (k : cont) : option string :=
  match s with
  | String c s' =>
      if p c then
        match plus_more p c s' k with
        | Some rest => Some rest
        | None => k (Some prev) s
        end
      else k (Some prev) s
  | EmptyString => k (Some prev) s
  end.

Fixpoint rmatch (r : regex) (prev : option ascii) (s : string) (k : cont) : option string :=
  match r with
  | Bnd => if at_boundary prev s then k prev s else None
  | Chr p =>
      match s with
      | String c s' => if p c then k (Some c) s' else None
      | EmptyString => None
      end
  | Cat r1 r2 => rmatch r1 prev s (fun prev' s' => rmatch r2 prev' s' k)
  | Opt r1 =>
      match rmatch r1 prev s k with
      | Some rest => Some rest
      | None => k prev s
      end
  | Plus p =>
      match s with
      | String c s' => if p c then plus_more p c s' k else None
      | EmptyString => None
      end
  end.

(** The first [n] characters of [s]. *)
Fixpoint take (n : nat) (s : string) : string :=
  match n, s with
  | S n', String c s' => String c (take n' s')
  | _, _ => EmptyString
  end.

(** [re.search(r, s).group(0)]: the match at the leftmost position that has
    one; every position from the start of [s] to its end is tried in turn. *)
Fixpoint search_from (r : regex) (prev : option ascii) (s : string) : option string :=
  match rmatch r prev s (fun _ rest => Some rest) with
  | Some rest => Some (take (String.length s - String.length rest) s)
  | None =>
      match s with
      | String c s' => search_from r (Some c) s'
      | EmptyString => None
      end
  end.

Definition search (r : regex) (s : string) : option string := search_from r None s.

Definition is_dot (c : ascii) : bool := Ascii.eqb c ".".

(** [r"\b(\d+(?:\.\d{1,2})?)\b"].  The only group spans the whole match (the
    two [\b] are zero-width), so [group(1)] is [group(0)]. *)
Definition amount_pattern : regex :=
  Cat Bnd
    (Cat (Cat (Plus is_digit)
              (Opt (Cat (Chr is_dot) (Cat (Chr is_digit) (Opt (Chr is_digit))))))
         Bnd).

End Text.

(* ================================================================== *)
(** * Python floats *)

Module PyFloat.

Local Open Scope Z_scope.

Definition digit_value (c : ascii) : Z := Z.of_nat (nat_of_ascii c) - 48.

(** The integer a digit string denotes, most significant digit first. *)
Fixpoint digits_value (acc : Z) (s : string) : Z :=
  match s with
  | EmptyString => acc
  | String c s' => digits_value (10 * acc + digit_value c) s'
  end.

(** Splits [ddd.dd] at its first dot. *)
Fixpoint split_dot (s : string) : string * string :=
  match s with
  | EmptyString => (EmptyString, EmptyString)
  | String c s' =>
      if Text.is_dot c then (EmptyString, s')
      else let '(a, b) := split_dot s' in (String c a, b)
  end.

(** The binary64 number nearest to [n / d] (ties to even), for [n >= 0] and
    [d > 0]: the rounding [float()] performs on a decimal numeral. *)
Definition nearest_ratio (n d : Z) : float :=
  match n, d with
  | Zpos pn, Zpos pd =>
      SF2Prim (SFdiv prec emax (S754_finite false pn 0) (S754_finite false pd 0))
  | _, _ => 0%float
  end.

(** [float(s)] for a numeral [s] of the shape the amount pattern matches:
    digits, optionally followed by a dot and more digits. *)
Definition float_of_decimal (s : string) : float :=
  let '(ip, fp) := split_dot s in
  nearest_ratio (digits_value 0 (ip ++ fp)) (10 ^ Z.of_nat (String.length fp)).

End PyFloat.

(* ================================================================== *)
(** * [datetime]: the calendar fields and the [%Y-%m-%d] format *)

Module Datetime.

(** A naive [datetime.datetime]: calendar fields and time of day. *)
Record datetime : Type := mkDatetime {
  year : nat;
  month : nat;
  day : nat;
  hour : nat;
  minute : nat;
  second : nat;
  microsecond : nat
}.

Definition is_leap (y : nat) : bool :=
  ((y mod 4 =? 0) && negb (y mod 100 =? 0) || (y mod 400 =? 0))%nat.

Definition days_in_month (y m : nat) : nat :=
  match m with
  | 2 => if is_leap y then 29 else 28
  | 4 | 6 | 9 | 11 => 30
  | _ => 31
  end.

(** The dates the [datetime] constructor accepts. *)
Definition valid_date (y m d : nat) : bool :=
  ((1 <=? y) && (y <=? 9999) && (1 <=? m) && (m <=? 12) &&
   (1 <=? d) && (d <=? days_in_month y m))%nat.

Definition valid (t : datetime) : bool := valid_date (year t) (month t) (day t).

(** The same day at 00:00:00, which is what [strptime] builds from a date. *)
Definition midnight (t : datetime) : datetime :=
  mkDatetime (year t) (month t) (day t) 0 0 0 0.

Definition digit_char (n : nat) : ascii := ascii_of_nat (48 + n).

Definition pad2 (n : nat) : string :=
  String (digit_char (n / 10 mod 10)) (String (digit_char (n mod 10)) EmptyString).

Definition pad4 (n : nat) : string :=
  String (digit_char (n / 10 / 10 / 10 mod 10))
    (String (digit_char (n / 10 / 10 mod 10)) (pad2 n)).

(** The directive [%Y] of [strftime], as the C library of the platform
    (glibc) writes it: the year in decimal with no padding, so [999] for the
    year 999.  Years are 1 to 9999. *)
Definition year_text (y : nat) : string :=
  if (y <? 10)%nat then String (digit_char (y mod 10)) EmptyString
  else if (y <? 100)%nat then pad2 y
  else if (y <? 1000)%nat then String (digit_char (y / 10 / 10 mod 10)) (pad2 y)
  else pad4 y.

(** [t.strftime("%Y-%m-%d")]: the year as it is, month and day on two
    digits. *)
Definition strftime (t : datetime) : string :=
  year_text (year t) ++ "-" ++ pad2 (month t) ++ "-" ++ pad2 (day t).

Definition digit_nat (c : ascii) : nat := nat_of_ascii c - 48.

(** The directive [%m]: [1[0-2]|0[1-9]|[1-9]], alternatives in this order.
    Returns the month and the rest of the text. *)
Definition parse_month (s : string) : option (nat * string) :=
  match s with
  | String a (String b rest) =>
      if Ascii.eqb a "1" && Text.is_digit b && (digit_nat b <=? 2)%nat
      then Some (10 + digit_nat b, rest)
      else if Ascii.eqb a "0" && Text.is_digit b && (1 <=? digit_nat b)%nat
      then Some (digit_nat b, rest)
      else if Text.is_digit a && (1 <=? digit_nat a)%nat
      then Some (digit_nat a, String b rest)
      else None
  | String a EmptyString =>
      if Text.is_digit a && (1 <=? digit_nat a)%nat then Some (digit_nat a, EmptyString)
      else None
  | EmptyString => None
  end.

(** The directive [%d]: [3[01]|[12]\d|0[1-9]|[1-9]| [1-9]]. *)
Definition parse_day (s : string) : option (nat * string) :=
  match s with
  | String a (String b rest) =>
      if Ascii.eqb a "3" && Text.is_digit b && (digit_nat b <=? 1)%nat
      then Some (30 + digit_nat b, rest)
      else if (Ascii.eqb a "1" || Ascii.eqb a "2") && Text.is_digit b
      then Some (10 * digit_nat a + digit_nat b, rest)
      else if Ascii.eqb a "0" && Text.is_digit b && (1 <=? digit_nat b)%nat
      then Some (digit_nat b, rest)
      else if Text.is_digit a && (1 <=? digit_nat a)%nat
      then Some (digit_nat a, String b rest)
      else if Ascii.eqb a " " && Text.is_digit b && (1 <=? digit_nat b)%nat
      then Some (digit_nat b, rest)
      else None
  | String a EmptyString =>
      if Text.is_digit a && (1 <=? digit_nat a)%nat then Some (digit_nat a, EmptyString)
      else None
  | EmptyString => None
  end.

(** [datetime.strptime(s, "%Y-%m-%d")]: four digits, a dash, a month, a dash
    and a day; text left over, or a date that does not exist, raises
    [ValueError]. *)
Definition strptime (s : string) : result datetime :=
  match s with
  | String y1 (String y2 (String y3 (String y4 (String dash1 s1)))) =>
      if Text.is_digit y1 && Text.is_digit y2 && Text.is_digit y3 && Text.is_digit y4
         && Ascii.eqb dash1 "-"
      then
        match parse_month s1 with
        | Some (m, String dash2 s2) =>
            if Ascii.eqb dash2 "-" then
              match parse_day s2 with
              | Some (d, EmptyString) =>
                  let y := 1000 * digit_nat y1 + 100 * digit_nat y2
                           + 10 * digit_nat y3 + digit_nat y4 in
                  if valid_date y m d then Ok (mkDatetime y m d 0 0 0 0) else Raise
              | _ => Raise
              end
            else Raise
        | _ => Raise
        end
      else Raise
  | _ => Raise
  end.

(** [a <= b] on naive datetimes: the fields are compared in order, year
    first, as tuples are. *)
Definition fields (t : datetime) : list nat :=
  [ year t; month t; day t; hour t; minute t; second t; microsecond t ].

Fixpoint lex_compare (a b : list nat) : comparison :=
  match a, b with
  | [], [] => Eq
  | [], _ :: _ => Lt
  | _ :: _, [] => Gt
  | x :: a', y :: b' =>
      match Nat.compare x y with
      | Eq => lex_compare a' b'
      | c => c
      end
  end.

Definition datetime_leb (a b : datetime) : bool :=
  match lex_compare (fields a) (fields b) with
  | Gt => false
  | _ => true
  end.

End Datetime.

(* ================================================================== *)
(** * [models.py] *)

Module Models.

Import Datetime.

(** The values a spreadsheet cell or a dataclass field holds at run time: a
    [str] or a [float].  A missing cell is the float NaN, as pandas reads it. *)
Inductive value : Type :=
| VStr (s : string)
| VFloat (x : float).

Definition value_eqb (a b : value) : bool :=
  match a, b with
  | VStr s, VStr t => String.eqb s t
  | VFloat x, VFloat y => PrimFloat.Leibniz.eqb x y
  | _, _ => false
  end.

Record Expense : Type := mkExpense {
  date : datetime;
  category : value;
  amount : float;
  notes : value
}.

Record CategoryTotal : Type := mkCategoryTotal {
  ct_category : value;
  total : float;
  count : nat
}.

Record ParsedExpense : Type := mkParsedExpense {
  raw_text : string;
  detected_amount : float;
  detected_date : datetime;
  confidence : float
}.

(** A [dict] with string keys, in insertion order; also a DataFrame row. *)
Definition pydict : Type := list (string * value).

Fixpoint dict_get (key : string) (default : value) (d : pydict) : value :=
  match d with
  | [] => default
  | (k, v) :: d' => if String.eqb k key then v else dict_get key default d'
  end.

(** [Expense.to_dict] *)
Definition to_dict (e : Expense) : pydict :=
  [ ("Date/Time", VStr (strftime (date e)));
    ("Category", category e);
    ("Amount ($)", VFloat (amount e));
    ("Notes", notes e) ].

Section FromDict.

(** [float(s)] for the text of a cell; [Raise] is [ValueError]. *)
Variable float_of_str : string -> result float.

(** [float(v)] *)
Definition to_float (v : value) : result float :=
  match v with
  | VFloat x => Ok x
  | VStr s => float_of_str s
  end.

(** [Expense.from_dict]; [now] is the reading of [datetime.now()]. *)
Definition from_dict (now : datetime) (data : pydict) : result Expense :=
  d <- match dict_get "Date/Time" (VStr EmptyString) data with
       | VStr date_str => strptime date_str
       | VFloat _ => Ok now
       end ;;
  a <- to_float (dict_get "Amount ($)" (VFloat 0) data) ;;
  Ok (mkExpense d
        (dict_get "Category" (VStr "Uncategorized") data)
        a
        (dict_get "Notes" (VStr EmptyString) data)).

End FromDict.

End Models.

(* ================================================================== *)
(** * [ExpenseParser] *)

Module ExpenseParser.

Import Datetime Models.

(** [PREFER_DATES_FROM] of dateparser's settings. *)
Inductive preference : Type :=
| Past
| Future.

Section Parser.

(** [float(w2n.word_to_num(s))]; [Raise] is the [ValueError] of a text with no
    number word. *)
Variable word_to_num : string -> result float.

(** [dateparser.parse(text, settings={'PREFER_DATES_FROM': p, 'RELATIVE_BASE':
    base})], [p] absent when the setting is not passed.  The library answers
    with a [datetime], with [None], or raises. *)
Variable dateparser_parse : string -> option preference -> datetime -> result (option datetime).

(** [t + timedelta(days=n)] *)
Variable add_days : datetime -> Z -> datetime.

(** [text.replace(",", <empty>).replace("$", <empty>).lower()] *)
Definition clean (text : string) : string :=
  Text.lower (Text.remove_char "$" (Text.remove_char "," text)).

(** [ExpenseParser.parse_amount].  The body of the [try] either returns a
    float or raises; the handler turns a raise into [0.0]. *)
Definition parse_amount (text : string) : float :=
  if Text.is_empty text then 0%float
  else
    let text_clean := clean text in
    let attempt : result float :=
      match Text.search Text.amount_pattern text_clean with
      | Some group1 => Ok (PyFloat.float_of_decimal group1)
      | None => word_to_num text_clean
      end in
    match attempt with
    | Ok amount => amount
    | Raise => 0%float
    end.

(** [ExpenseParser.parse_date].  [now] is the reading of [datetime.now()].
    Inside the [try], [Ok (Some d)] is a [return d], and [Ok None] is control
    reaching the end of the [try] block. *)
Definition parse_date (now : datetime) (text : string) : datetime :=
  if Text.is_empty text then now
  else
    let text_lower := Text.lower text in
    let today := now in
    let attempt : result (option datetime) :=
      if Text.contains "yesterday" text_lower then Ok (Some (add_days today (-1)))
      else if Text.contains "tomorrow" text_lower then Ok (Some (add_days today 1))
      else
        biased <-
          (if Text.contains "last" text_lower || Text.contains "ago" text_lower
           then dateparser_parse text (Some Past) today
           else if Text.contains "next" text_lower
           then dateparser_parse text (Some Future) today
           else Ok None) ;;
        match biased with
        | Some parsed => Ok (Some parsed)
        | None =>
            (* General parsing *)
            dateparser_parse text None today
        end in
    match attempt with
    | Ok (Some result) => result
    | Ok None => today
    | Raise => today
    end.

(** [ExpenseParser.parse_expense] *)
Definition parse_expense (now : datetime) (text : string) : ParsedExpense :=
  let amount := parse_amount text in
  let date := parse_date now text in
  let confidence := if PrimFloat.eqb amount 0 then (1 - 0.5)%float else 1%float in
  mkParsedExpense text amount date confidence.

End Parser.

End ExpenseParser.

(* ================================================================== *)
(** * [ExcelStorage] *)

Module ExcelStorage.

Import Datetime Models.

(** A [pandas.DataFrame]: column labels and rows of cells.  A row shorter
    than the header reads as NaN in the columns it lacks. *)
Record DataFrame : Type := mkDataFrame {
  columns : list string;
  rows : list (list value)
}.

Definition NaN : value := VFloat PrimFloat.nan.

(** [pd.DataFrame(data)] for a list of dicts that all have the same keys, as
    the dicts of [to_dict] do; an empty list gives a frame with no column. *)
Definition DataFrame_of_dicts (data : list pydict) : DataFrame :=
  mkDataFrame
    (match data with
     | [] => []
     | d :: _ => map fst d
     end)
    (map (map snd) data).

Fixpoint index_of (name : string) (cols : list string) : option nat :=
  match cols with
  | [] => None
  | c :: cols' =>
      if String.eqb c name then Some 0
      else option_map S (index_of name cols')
  end.

(** [df[name]]: the cells of a column; [KeyError] when there is none. *)
Definition column (name : string) (df : DataFrame) : result (list value) :=
  match index_of name (columns df) with
  | Some i => Ok (map (fun r => nth i r NaN) (rows df))
  | None => Raise
  end.

(** [v.notna()] on one cell *)
Definition notna (v : value) : bool :=
  match v with
  | VStr _ => true
  | VFloat x => negb (PrimFloat.is_nan x)
  end.

Definition is_str (v : value) : bool :=
  match v with
  | VStr _ => true
  | VFloat _ => false
  end.

(** [col.str.upper()]: the accessor raises [AttributeError] on a numeric
    column (pandas infers a numeric dtype when no cell of a non-empty column
    is text); cells that are not text give NaN. *)
Definition upper_cell (v : value) : value :=
  match v with
  | VStr s => VStr (Text.upper s)
  | VFloat _ => NaN
  end.

Definition str_upper (col : list value) : result (list value) :=
  match col with
  | [] => Ok []
  | _ :: _ => if existsb is_str col then Ok (map upper_cell col) else Raise
  end.

(** [v != "TOTAL"] on one cell *)
Definition ne_TOTAL (v : value) : bool :=
  match v with
  | VStr s => negb (String.eqb s "TOTAL")
  | VFloat _ => true
  end.

(** [df[mask]] *)
Fixpoint select {A : Type} (mask : list bool) (xs : list A) : list A :=
  match mask, xs with
  | b :: mask', x :: xs' => if b then x :: select mask' xs' else select mask' xs'
  | _, _ => []
  end.

Fixpoint zip_with {A B C : Type} (f : A -> B -> C) (xs : list A) (ys : list B) : list C :=
  match xs, ys with
  | x :: xs', y :: ys' => f x y :: zip_with f xs' ys'
  | _, _ => []
  end.

(** [df[(df["Category"].notna()) & (df["Category"].str.upper() != "TOTAL")]] *)
Definition drop_total_rows (df : DataFrame) : result DataFrame :=
  col <- column "Category" df ;;
  up <- str_upper col ;;
  Ok (mkDataFrame (columns df)
        (select (zip_with andb (map notna col) (map ne_TOTAL up)) (rows df))).

(** One row of [df.iterrows()], as the mapping [from_dict] reads. *)
Fixpoint row_dict (cols : list string) (r : list value) : pydict :=
  match cols with
  | [] => []
  | c :: cols' => (c, hd NaN r) :: row_dict cols' (tl r)
  end.

Definition iterrows (df : DataFrame) : list pydict :=
  map (row_dict (columns df)) (rows df).

Section Storage.

(** The content of an [.xlsx] file, and the two pandas calls that touch it. *)
Variable File : Type.
Variable read_excel : File -> result DataFrame.
Variable to_excel : DataFrame -> result File.
Variable float_of_str : string -> result float.

(** The files on disk, by path; [None] when [os.path.exists] is false. *)
Definition filesystem : Type := string -> option File.

Definition write_file (path : string) (f : File) (fs : filesystem) : filesystem :=
  fun p => if String.eqb p path then Some f else fs p.

(** [ExcelStorage.load_expenses] *)
Definition load_expenses (now : datetime) (file_path : string) (fs : filesystem)
  : list Expense :=
  match fs file_path with
  | None => []
  | Some f =>
      let attempt : result (list Expense) :=
        df <- read_excel f ;;
        df <- drop_total_rows df ;;
        traverse (from_dict float_of_str now) (iterrows df) in
      match attempt with
      | Ok expenses => expenses
      | Raise => []
      end
  end.

(** [ExcelStorage.save_expenses]; a failed write is raised again. *)
Definition save_expenses (file_path : string) (expenses : list Expense) (fs : filesystem)
  : result filesystem :=
  let data := map to_dict expenses in
  let df := DataFrame_of_dicts data in
  f <- to_excel df ;;
  Ok (write_file file_path f fs).

(** [ExcelStorage.add_expense] *)
Definition add_expense (now : datetime) (file_path : string) (expense : Expense)
  (fs : filesystem) : result filesystem :=
  let expenses := load_expenses now file_path fs in
  save_expenses file_path (expenses ++ [expense]) fs.

(** [ExcelStorage.clear_all] *)
Definition clear_all (file_path : string) (fs : filesystem) : result filesystem :=
  save_expenses file_path [] fs.

End Storage.

End ExcelStorage.

(* ================================================================== *)
(** * [list.sort]

    CPython 3.11 ([Objects/listobject.c]) sorts a list of fewer than 64 items
    as one run: [count_run] finds the run the list starts with, ascending
    ([a0 <= a1 <= ...]) or strictly descending (and then reversed), and
    [binarysort] inserts each later item into the sorted part, at the place
    a binary search finds.  Only [<] on the keys is used.  With
    [reverse=True] the list is reversed before and after.  The steps are
    followed as they are, because with a NaN among the keys the result
    depends on which comparisons are made. *)

Module PyList.

Section Sort.

Context {A : Type}.

(** [lt x y] is [key(x) < key(y)]. *)
Variable lt : A -> A -> bool.

(** How many of the items of [l] continue the run that ends with [prev]: a
    descending run goes on while the next key is less than the one before it,
    an ascending run while it is not. *)
Fixpoint run_length (descending : bool) (prev : A) (l : list A) : nat :=
  match l with
  | [] => 0
  | x :: l' =>
      if Bool.eqb (lt x prev) descending then S (run_length descending x l') else 0
  end.

(** [count_run]: the length of the run at the start of [l], and whether it is
    descending. *)
Definition count_run (l : list A) : nat * bool :=
  match l with
  | [] => (0, false)
  | [ _ ] => (1, false)
  | x :: (y :: l') =>
      let descending := lt y x in
      (2 + run_length descending y l', descending)
  end.

(** The binary search of [binarysort] for the place of [pivot] in [pre]:
    [while l < r: p = l + ((r - l) >> 1); if pivot < pre[p]: r = p; else:
    l = p + 1].  Each turn shrinks [r - l], so [fuel = len(pre)] turns are
    enough. *)
Fixpoint bisect (fuel : nat) (pre : list A) (pivot : A) (l r : nat) : nat :=
  match fuel with
  | 0 => l
  | S fuel' =>
      if (l <? r)%nat then
        let p := l + (r - l) / 2 in
        if lt pivot (nth p pre pivot) then bisect fuel' pre pivot l p
        else bisect fuel' pre pivot (p + 1) r
      else l
  end.

Definition insert_at (k : nat) (x : A) (pre : list A) : list A :=
  firstn k pre ++ x :: skipn k pre.

(** One turn of [binarysort]: [pivot] is put at the place found. *)
Definition binary_insert (pre : list A) (pivot : A) : list A :=
  insert_at (bisect (List.length pre) pre pivot 0 (List.length pre)) pivot pre.

(** [binarysort]: the items of [rest] are inserted one by one into the
    sorted part [run]. *)
Definition binarysort (run rest : list A) : list A :=
  fold_left binary_insert rest run.

(** The sort of a list of fewer than 64 items, in list order. *)
Definition sort_run (l : list A) : list A :=
  let '(n, descending) := count_run l in
  let run := firstn n l in
  binarysort (if descending then rev run else run) (skipn n l).

(** The same with [reverse=True]. *)
Definition sort_reverse (l : list A) : list A := rev (sort_run (rev l)).

End Sort.

End PyList.

(* ================================================================== *)
(** * [ExpenseAnalyzer] *)

Module ExpenseAnalyzer.

Import Datetime Models.

(** [category_data]: the dict of running totals and counts, in insertion
    order.  Keys are compared as strings are; a float key, which the
    annotation [category: str] rules out, is compared bit for bit. *)
Definition category_data : Type := list (value * (float * nat)).

(** One turn of the loop: the entry of [cat] is created with [0.0] and [0] when
    [cat] is not a key yet, then [amt] is added and the count goes up. *)
Fixpoint bump (cat : value) (amt : float) (d : category_data) : category_data :=
  match d with
  | [] => [(cat, ((0 + amt)%float, 0 + 1))]
  | (k, (t, c)) :: d' =>
      if value_eqb k cat then (k, ((t + amt)%float, c + 1)) :: d'
      else (k, (t, c)) :: bump cat amt d'
  end.

Definition accumulate (expenses : list Expense) : category_data :=
  fold_left (fun d exp => bump (category exp) (amount exp) d) expenses [].

Definition items (d : category_data) : list CategoryTotal :=
  map (fun '(cat, (t, c)) => mkCategoryTotal cat t c) d.

(** The stable sort by total, descending, written as an insertion sort.  It
    is what every stable sort returns when [<] orders the totals, that is
    when none of them is NaN.  It is the reference [list.sort] is compared
    with, not the model of [list.sort], which is [sort_totals] below. *)
Fixpoint insert_stable (x : CategoryTotal) (l : list CategoryTotal) : list CategoryTotal :=
  match l with
  | [] => [x]
  | y :: l' =>
      if PrimFloat.ltb (total x) (total y) then y :: insert_stable x l'
      else x :: y :: l'
  end.

Definition stable_sort (l : list CategoryTotal) : list CategoryTotal :=
  fold_right insert_stable [] l.

(** The comparison [list.sort] makes between two entries: [<] on their keys,
    the totals. *)
Definition key_lt (x y : CategoryTotal) : bool := PrimFloat.ltb (total x) (total y).

(** On 64 items or more [list.sort] cuts the list into runs and merges them;
    the merges are not modelled.  A [merge_sort] stands for
    [totals.sort(key=lambda x: x.total, reverse=True)] on such a list, with
    what the language reference promises of it: the items are rearranged,
    none is lost or added, and the sort is stable, so that on totals that [<]
    orders (none is NaN) the result is that of the stable sort. *)
Record merge_sort : Type := mkMergeSort {
  sort_long : list CategoryTotal -> list CategoryTotal;
  sort_long_perm : forall l : list CategoryTotal, Permutation (sort_long l) l;
  sort_long_stable :
    forall l : list CategoryTotal,
      Forall (fun ct => PrimFloat.is_nan (total ct) = false) l -> sort_long l = stable_sort l
}.

(** [totals.sort(key=lambda x: x.total, reverse=True)] *)
Definition sort_totals (merge : merge_sort) (totals : list CategoryTotal)
  : list CategoryTotal :=
  if (List.length totals <? 64)%nat then PyList.sort_reverse key_lt totals
  else sort_long merge totals.

(** [ExpenseAnalyzer.calculate_category_totals] *)
Definition calculate_category_totals (merge : merge_sort) (expenses : list Expense)
  : list CategoryTotal :=
  sort_totals merge (items (accumulate expenses)).

(** [sum(xs)]: the items are added to [0] from left to right.  (CPython 3.12
    and later also carry a correction term through a sum of floats; the
    statements below that compare sums do not depend on it.) *)
Definition sum (xs : list float) : float :=
  fold_left PrimFloat.add xs 0%float.

(** [ExpenseAnalyzer.get_total_spending] *)
Definition get_total_spending (expenses : list Expense) : float :=
  sum (map amount expenses).

(** [ExpenseAnalyzer.filter_by_date_range] *)
Definition filter_by_date_range (expenses : list Expense) (start_date end_date : datetime)
  : list Expense :=
  filter (fun exp => datetime_leb start_date (date exp) && datetime_leb (date exp) end_date)
    expenses.

End ExpenseAnalyzer.

(* ================================================================== *)
(** * [ExpenseController] *)

Module ExpenseController.

Import Datetime Models ExcelStorage ExpenseAnalyzer.

Section Controller.

Variable File : Type.
Variable read_excel : File -> result DataFrame.
Variable to_excel : DataFrame -> result File.
Variable float_of_str : string -> result float.

(** [ExcelFormatter.format_workbook] on the content of a workbook: styles,
    widths and a chart; it raises when the workbook cannot be opened. *)
Variable format_workbook : File -> result File.

(** [self.storage.file_path] *)
Variable storage_path : string.

(** The list handed to [save_expenses] by [export_to_excel]: what was loaded,
    then the TOTAL row. *)
Definition export_rows (now : datetime) (fs : filesystem File) : list Expense :=
  let expenses := load_expenses File read_excel float_of_str now storage_path fs in
  let total := get_total_spending expenses in
  let total_expense := mkExpense now (VStr "TOTAL") total (VStr EmptyString) in
  expenses ++ [total_expense].

(** [ExpenseController.export_to_excel] *)
Definition export_to_excel (now : datetime) (file_path : string) (fs : filesystem File)
  : result (filesystem File) :=
  fs1 <- save_expenses File to_excel file_path (export_rows now fs) fs ;;
  match fs1 file_path with
  | Some f => f' <- format_workbook f ;; Ok (write_file File file_path f' fs1)
  | None => Raise
  end.

(** [list.sort] on long lists, for the analyzer. *)
Variable merge : merge_sort.

(** [ExpenseController.get_dashboard_data]: the expenses, the category totals,
    the total spending and the number of expenses. *)
Definition get_dashboard_data (now : datetime) (fs : filesystem File)
  : list Expense * list CategoryTotal * float * nat :=
  let expenses := load_expenses File read_excel float_of_str now storage_path fs in
  (expenses, calculate_category_totals merge expenses, get_total_spending expenses,
   List.length expenses).

(** The parser the controller is built with: [ExpenseParser], over its three
    libraries. *)
Variable word_to_num : string -> result float.
Variable dateparser_parse :
  string -> option ExpenseParser.preference -> datetime -> result (option datetime).
Variable add_days : datetime -> Z -> datetime.

(** [ExpenseController.parse_and_create_expense]; an absent [manual_amount] or
    [manual_date] is [None].  A datetime is always true, so [if manual_date]
    tests for [None]. *)
Definition parse_and_create_expense (now : datetime) (text : string) (category : value)
  (manual_amount : option float) (manual_date : option datetime) : Expense :=
  let parsed := ExpenseParser.parse_expense word_to_num dateparser_parse add_days now text in
  mkExpense
    (match manual_date with
     | Some d => d
     | None => detected_date parsed
     end)
    category
    (match manual_amount with
     | Some a => a
     | None => detected_amount parsed
     end)
    (VStr text).

(** [ExpenseController.add_expense]: the created expense and the files after
    the storage has added it. *)
Definition add_expense (now : datetime) (text : string) (category : value)
  (manual_amount : option float) (manual_date : option datetime) (fs : filesystem File)
  : result (Expense * filesystem File) :=
  let expense := parse_and_create_expense now text category manual_amount manual_date in
  fs' <- ExcelStorage.add_expense File read_excel to_excel float_of_str now storage_path
           expense fs ;;
  Ok (expense, fs').

(** [ExpenseController.get_all_expenses] *)
Definition get_all_expenses (now : datetime) (fs : filesystem File) : list Expense :=
  load_expenses File read_excel float_of_str now storage_path fs.

(** [ExpenseController.clear_all_expenses] *)
Definition clear_all_expenses (fs : filesystem File) : result (filesystem File) :=
  clear_all File to_excel storage_path fs.

End Controller.

End ExpenseController.

(* ================================================================== *)
(** * The vocabulary of the statements *)

Module Statements.

Import Text Datetime Models ExcelStorage ExpenseAnalyzer.

(** The character before the position reached after reading [pre]. *)
Fixpoint last_char (prev : option ascii) (pre : string) : option ascii :=
  match pre with
  | EmptyString => prev
  | String c pre' => last_char (Some c) pre'
  end.

(** The text after the integer part of a numeral: nothing, or a dot and one
    or two digits. *)
Definition is_fraction (s : string) : bool :=
  match s with
  | EmptyString => true
  | String dot (String d1 EmptyString) => is_dot dot && is_digit d1
  | String dot (String d1 (String d2 EmptyString)) => is_dot dot && is_digit d1 && is_digit d2
  | _ => false
  end.

(** A dot and a digit: what would extend an integer into a longer numeral. *)
Definition starts_fraction (s : string) : bool :=
  match s with
  | String dot (String d1 _) => is_dot dot && is_digit d1
  | _ => false
  end.

(** [0.0 <= x]: a number, not NaN, that is not negative. *)
Definition nonneg (x : float) : Prop := PrimFloat.leb 0 x = true.

(** The same on the specification side ([SpecFloat]): a zero, a positive
    finite number or plus infinity. *)
Inductive nonneg_sf : spec_float -> Prop :=
| nn_zero (s : bool) : nonneg_sf (S754_zero s)
| nn_inf : nonneg_sf (S754_infinity false)
| nn_fin (m : positive) (e : Z) : nonneg_sf (S754_finite false m e).

(** A float that is a number: not NaN. *)
Definition number (x : float) : Prop := PrimFloat.is_nan x = false.

(** [a] stands before [b] in [l]. *)
Definition before {A : Type} (a b : A) (l : list A) : Prop :=
  exists l1 l2 l3, l = l1 ++ a :: l2 ++ b :: l3.

Section Order.

Context {A : Type} (lt : A -> A -> bool).

(** [x <= y] read off [<]: [y] is not less than [x]. *)
Definition leq (x y : A) : Prop := lt y x = false.

(** Insertion by a scan from the left: [x] goes after the items that are not
    greater. *)
Fixpoint insert_asc (x : A) (pre : list A) : list A :=
  match pre with
  | [] => [x]
  | y :: pre' => if lt x y then x :: y :: pre' else y :: insert_asc x pre'
  end.

(** The insertion sort that takes the items from left to right. *)
Definition isort (l acc : list A) : list A :=
  fold_left (fun pre x => insert_asc x pre) l acc.

(** The items of [l], after [prev], go on a descending run ([d = true]: each
    is less than the one before) or an ascending one ([d = false]: none
    is). *)
Fixpoint chain (d : bool) (prev : A) (l : list A) : Prop :=
  match l with
  | [] => True
  | x :: l' => lt x prev = d /\ chain d x l'
  end.

End Order.

(** [d.keys()] *)
Definition keys (d : category_data) : list value := map fst d.

(** The records of category [c], in input order. *)
Definition records_of (c : value) (l : list Expense) : list Expense :=
  filter (fun e => value_eqb c (category e)) l.

(** What the dictionary holds for category [k] after the records [l]: their
    amounts added to [0.0] in input order, and their number. *)
Definition entry (l : list Expense) (k : value) : value * (float * nat) :=
  (k, (sum (map amount (records_of k l)), List.length (records_of k l))).

(** [a] is listed before [b] only when [b]'s total is not greater. *)
Definition descending (a b : CategoryTotal) : Prop :=
  PrimFloat.leb (total b) (total a) = true.

(** What the filter of [load_expenses] lets through: a category that is not
    missing and that is not TOTAL in any case. *)
Definition kept (v : value) : Prop :=
  notna v = true /\ forall s : string, v = VStr s -> Text.upper s <> "TOTAL"%string.

(** A date that [strftime] writes in the form [strptime] reads: a date of
    the calendar whose year has four digits. *)
Definition storable (t : datetime) : Prop := valid t = true /\ 1000 <= year t.

(** The cells of the row [save_expenses] writes for a record. *)
Definition cells (e : Expense) : list value :=
  [ VStr (strftime (date e)); category e; VFloat (amount e); notes e ].

(** The same record with the time of day dropped. *)
Definition at_midnight (e : Expense) : Expense :=
  mkExpense (midnight (date e)) (category e) (amount e) (notes e).

(** The test of the filter of [load_expenses] on one category cell. *)
Definition passes (v : value) : bool := notna v && ne_TOTAL (upper_cell v).

(** [key in d] *)
Definition has_key (key : string) (d : pydict) : bool :=
  existsb (fun kv => String.eqb (fst kv) key) d.

(** The test of [filter_by_date_range] on one record. *)
Definition in_range (start_date end_date : datetime) (exp : Expense) : bool :=
  datetime_leb start_date (date exp) && datetime_leb (date exp) end_date.

(** [a <= b] on datetimes, as a proposition. *)
Definition datetime_le (a b : datetime) : Prop := datetime_leb a b = true.

End Statements.

(* ================================================================== *)
(** * Inputs of the examples *)

Module Examples.

Import Text Datetime Models ExpenseParser ExcelStorage ExpenseAnalyzer ExpenseController.

(** The written-number library used in the examples: it knows one phrase. *)
Definition knows_twenty (s : string) : result float :=
  if String.eqb s "twenty dollars" then Ok 20%float else Raise.

(** A clock reading and day arithmetic on the day of the month, enough for
    the examples. *)
Definition noon : datetime := mkDatetime 2025 10 14 12 0 0 0.

Definition shift_day (t : datetime) (n : Z) : datetime :=
  mkDatetime (year t) (month t) (Z.to_nat (Z.of_nat (day t) + n))
    (hour t) (minute t) (second t) (microsecond t).

(** A resolver that understands nothing. *)
Definition resolves_nothing (_ : string) (_ : option preference) (_ : datetime)
  : result (option datetime) := Ok None.

(** A resolver that finds 2025-10-10 unless it is told to prefer the past. *)
Definition resolves_unbiased (_ : string) (p : option preference) (_ : datetime)
  : result (option datetime) :=
  match p with
  | Some Past => Ok None
  | _ => Ok (Some (mkDatetime 2025 10 10 0 0 0 0))
  end.

(** A day of October 2025, at midnight. *)
Definition on_day (d : nat) : datetime := mkDatetime 2025 10 d 0 0 0 0.

(** The four records of the test suite's fixture. *)
Definition sample_expenses : list Expense :=
  [ mkExpense (on_day 10) (VStr "Food") 25.50%float (VStr "Lunch at Chipotle");
    mkExpense (on_day 11) (VStr "Gas") 45.00%float (VStr "Shell station");
    mkExpense (on_day 12) (VStr "Food") 15.75%float (VStr "Starbucks coffee");
    mkExpense (on_day 13) (VStr "Entertainment") 50.00%float (VStr "Movie tickets") ].

(** One large amount and three small ones, in two categories. *)
Definition large_and_small : list Expense :=
  [ mkExpense (on_day 10) (VStr "Rent") 1e16%float (VStr EmptyString);
    mkExpense (on_day 11) (VStr "Rent") 1%float (VStr EmptyString);
    mkExpense (on_day 12) (VStr "Food") 1%float (VStr EmptyString);
    mkExpense (on_day 13) (VStr "Food") 1%float (VStr EmptyString) ].

(** A spreadsheet layer that returns every cell as it was written: a file is
    the frame itself.  Used for the examples. *)
Definition plain_read (f : DataFrame) : result DataFrame := Ok f.
Definition plain_write (df : DataFrame) : result DataFrame := Ok df.
Definition plain_format (f : DataFrame) : result DataFrame := Ok f.
Definition no_text_amount (_ : string) : result float := Raise.
Definition no_files : filesystem DataFrame := fun _ => None.

(** Two clock readings of the same day. *)
Definition afternoon : datetime := mkDatetime 2025 10 14 15 30 0 0.
Definition evening : datetime := mkDatetime 2025 10 14 20 0 0 0.

(** A record entered in the afternoon. *)
Definition lunch : Expense :=
  mkExpense afternoon (VStr "Food") 12.99%float (VStr "Test expense").

(** A disk that holds the fixture at the storage path, and the disk after
    an export to another path. *)
Definition stored_sample : filesystem DataFrame :=
  write_file DataFrame "expenses.xlsx"
    (DataFrame_of_dicts (map to_dict sample_expenses)) no_files.

(** The sheet an export of the fixture on 2025-10-14 writes. *)
Definition exported_sheet : DataFrame :=
  mkDataFrame [ "Date/Time"; "Category"; "Amount ($)"; "Notes" ]%string
    [ [ VStr "2025-10-10"; VStr "Food"; VFloat 25.50; VStr "Lunch at Chipotle" ];
      [ VStr "2025-10-11"; VStr "Gas"; VFloat 45.00; VStr "Shell station" ];
      [ VStr "2025-10-12"; VStr "Food"; VFloat 15.75; VStr "Starbucks coffee" ];
      [ VStr "2025-10-13"; VStr "Entertainment"; VFloat 50.00; VStr "Movie tickets" ];
      [ VStr "2025-10-14"; VStr "TOTAL"; VFloat 136.25; VStr EmptyString ] ].

Definition exported_sample : filesystem DataFrame :=
  match export_to_excel DataFrame plain_read plain_write no_text_amount plain_format
          "expenses.xlsx" afternoon "export.xlsx" stored_sample with
  | Ok fs' => fs'
  | Raise => stored_sample
  end.

(** Seven categories, one record each; the amount of the fifth is NaN. *)
Definition nan_among_amounts : list Expense :=
  [ mkExpense (on_day 10) (VStr "A") 5%float (VStr EmptyString);
    mkExpense (on_day 10) (VStr "B") 5%float (VStr EmptyString);
    mkExpense (on_day 10) (VStr "C") 5%float (VStr EmptyString);
    mkExpense (on_day 10) (VStr "D") 5%float (VStr EmptyString);
    mkExpense (on_day 10) (VStr "E") PrimFloat.nan (VStr EmptyString);
    mkExpense (on_day 10) (VStr "F") 5%float (VStr EmptyString);
    mkExpense (on_day 10) (VStr "G") 9%float (VStr EmptyString) ].

(** A record of the last day of the year 999, and one with the default
    notes, the empty text. *)
Definition year_999 : Expense :=
  mkExpense (mkDatetime 999 12 31 0 0 0 0) (VStr "Food") 10%float (VStr "Feast").

Definition no_notes : Expense :=
  mkExpense (on_day 14) (VStr "Food") 10%float (VStr EmptyString).

(** A spreadsheet layer that reads an empty text cell as a missing one, NaN,
    which is what [pandas.read_excel] does by default; the other cells come
    back as written. *)
Definition blank_as_missing (v : value) : value :=
  match v with
  | VStr EmptyString => NaN
  | _ => v
  end.

Definition read_blank_as_missing (f : DataFrame) : result DataFrame :=
  Ok (mkDataFrame (columns f) (map (map blank_as_missing) (rows f))).

(** The two records of the test [test_load_expenses_filters_total_rows]. *)
Definition food_and_total : list Expense :=
  [ mkExpense (on_day 14) (VStr "Food") 10%float (VStr "Test");
    mkExpense (on_day 14) (VStr "TOTAL") 10%float (VStr "x") ].

(** A sheet with one good row and one row whose date is not [%Y-%m-%d]. *)
Definition sheet_with_bad_date : DataFrame :=
  mkDataFrame [ "Date/Time"; "Category"; "Amount ($)"; "Notes" ]%string
    [ [ VStr "2025-10-14"; VStr "Food"; VFloat 10; VStr "ok" ];
      [ VStr "14/10/2025"; VStr "Gas"; VFloat 40; VStr "bad date" ] ].

Definition stored_bad_date : filesystem DataFrame :=
  write_file DataFrame "expenses.xlsx" sheet_with_bad_date no_files.

(** A sheet whose categories are all numbers. *)
Definition sheet_with_numeric_categories : DataFrame :=
  mkDataFrame [ "Date/Time"; "Category"; "Amount ($)"; "Notes" ]%string
    [ [ VStr "2025-10-14"; VFloat 1; VFloat 10; VStr "a" ] ].

End Examples.

(* ================================================================== *)
(** * Facts about strings and the amount pattern *)

Module TextFacts.

Import Text Statements.
Local Open Scope string_scope.

Lemma append_empty_r (s : string) : s ++ EmptyString = s.
Proof.
  induction s as [ | c s IH ]; simpl; [ reflexivity | now rewrite IH ].
Qed.

Lemma append_assoc (a b c : string) : (a ++ b) ++ c = a ++ b ++ c.
Proof.
  induction a as [ | x a IH ]; simpl; [ reflexivity | now rewrite IH ].
Qed.

Lemma length_append (a b : string) :
  String.length (a ++ b) = String.length a + String.length b.
Proof.
  induction a as [ | x a IH ]; simpl; [ reflexivity | now rewrite IH ].
Qed.

Lemma take_append (a b : string) : take (String.length a) (a ++ b) = a.
Proof.
  induction a as [ | x a IH ]; simpl.
  - destruct b; reflexivity.
  - now rewrite IH.
Qed.

Lemma digit_is_word (c : ascii) : is_digit c = true -> is_word c = true.
Proof.
  unfold is_word. intros ->. reflexivity.
Qed.

Lemma digit_lower_char (c : ascii) : is_digit (lower_char c) = is_digit c.
Proof.
  destruct c as [[] [] [] [] [] [] [] []]; reflexivity.
Qed.

Lemma no_digit_lower (s : string) : any_char is_digit (lower s) = any_char is_digit s.
Proof.
  induction s as [ | c s IH ]; simpl; [ reflexivity | ].
  now rewrite digit_lower_char, IH.
Qed.

Lemma no_digit_remove_char (c : ascii) (s : string) :
  any_char is_digit s = false -> any_char is_digit (remove_char c s) = false.
Proof.
  induction s as [ | d s IH ]; simpl; [ reflexivity | ].
  intros H. apply orb_false_iff in H as [Hd Hs].
  destruct (Ascii.eqb d c); simpl; [ auto | rewrite Hd; auto ].
Qed.

(** The pattern starts with a digit: no match begins at a character that is
    not one, nor at the end of the text. *)
Lemma no_match_at_non_digit (prev : option ascii) (s : string) (k : cont) :
  match s with
  | String c _ => is_digit c = false
  | EmptyString => True
  end ->
  rmatch amount_pattern prev s k = None.
Proof.
  intros H. unfold amount_pattern. simpl.
  destruct (at_boundary prev s); [ | reflexivity ].
  destruct s as [ | c s ]; [ reflexivity | now rewrite H ].
Qed.

Lemma search_skips_non_digits (pre s : string) (prev : option ascii) :
  any_char is_digit pre = false ->
  search_from amount_pattern prev (pre ++ s)
  = search_from amount_pattern (last_char prev pre) s.
Proof.
  revert prev. induction pre as [ | c pre IH ]; intros prev H; [ reflexivity | ].
  simpl in H. apply orb_false_iff in H as [Hc Hpre].
  change (String c pre ++ s) with (String c (pre ++ s)).
  cbn [search_from]. rewrite no_match_at_non_digit by exact Hc.
  now rewrite IH.
Qed.

Lemma search_no_digit (s : string) :
  any_char is_digit s = false -> search amount_pattern s = None.
Proof.
  intros H. unfold search.
  rewrite <- (append_empty_r s), search_skips_non_digits by exact H.
  cbn [search_from]. now rewrite no_match_at_non_digit.
Qed.

(** Greedy [\d+]: over a run of digits that no digit follows, the first
    alternative tried takes the whole run. *)
Lemma plus_more_greedy (ds rest : string) (prev : ascii) (k : cont) (v : string) :
  all_chars is_digit ds = true ->
  match rest with
  | String c _ => is_digit c = false
  | EmptyString => True
  end ->
  k (last_char (Some prev) ds) rest = Some v ->
  plus_more is_digit prev (ds ++ rest) k = Some v.
Proof.
  revert prev. induction ds as [ | d ds IH ]; intros prev Hds Hrest Hk.
  - simpl in *. destruct rest as [ | c r ]; simpl; [ exact Hk | ].
    now rewrite Hrest.
  - simpl in Hds. apply andb_true_iff in Hds as [Hd Hds].
    change (String d ds ++ rest) with (String d (ds ++ rest)).
    cbn [plus_more]. rewrite Hd.
    now rewrite (IH d Hds Hrest Hk).
Qed.

Lemma word_after_digit (s : string) :
  word_after s = false ->
  match s with
  | String c _ => is_digit c = false
  | EmptyString => True
  end.
Proof.
  destruct s as [ | c s ]; simpl; [ trivial | ].
  intros H. destruct (is_digit c) eqn:E; [ | reflexivity ].
  apply digit_is_word in E. congruence.
Qed.

Lemma last_char_digits (ds : string) (prev : option ascii) :
  all_chars is_digit ds = true -> ds <> EmptyString ->
  word_before (last_char prev ds) = true.
Proof.
  revert prev. induction ds as [ | d ds IH ]; intros prev H Hne; [ congruence | ].
  simpl in H. apply andb_true_iff in H as [Hd Hds]. simpl.
  destruct ds as [ | d' ds' ].
  - simpl. now apply digit_is_word.
  - apply IH; [ exact Hds | discriminate ].
Qed.

(** The pattern matches a delimited numeral where it stands. *)
Lemma match_numeral (prev : option ascii) (ip frac post : string) :
  word_before prev = false ->
  all_chars is_digit ip = true -> ip <> EmptyString ->
  is_fraction frac = true ->
  word_after post = false ->
  (frac = EmptyString -> starts_fraction post = false) ->
  rmatch amount_pattern prev (ip ++ frac ++ post) (fun _ rest => Some rest) = Some post.
Proof.
  intros Hprev Hip Hne Hfrac Hpost Hext.
  destruct ip as [ | d ip ]; [ congruence | ].
  pose proof (last_char_digits (String d ip) prev Hip Hne) as Hlast.
  simpl in Hip. apply andb_true_iff in Hip as [Hd Hip].
  simpl in Hlast.
  unfold amount_pattern.
  change (String d ip ++ frac ++ post) with (String d (ip ++ frac ++ post)).
  cbn [rmatch]. unfold at_boundary at 1. rewrite Hprev. cbn [word_after].
  rewrite (digit_is_word d Hd). cbn [xorb]. rewrite Hd.
  pose proof (word_after_digit post Hpost) as Hnd.
  destruct frac as [ | dot [ | d1 [ | d2 [ | ? ? ] ] ] ]; try discriminate.
  - (* an integer *)
    simpl append.
    apply plus_more_greedy; [ exact Hip | exact Hnd | ].
    assert (Hno : rmatch (Cat (Chr is_dot) (Cat (Chr is_digit) (Opt (Chr is_digit))))
                    (last_char (Some d) ip) post
                    (fun prev' s' => rmatch Bnd prev' s' (fun _ rest => Some rest)) = None).
    { specialize (Hext eq_refl). destruct post as [ | c [ | c' post ] ]; simpl in *.
      - reflexivity.
      - destruct (is_dot c); reflexivity.
      - destruct (is_dot c); [ | reflexivity ]. simpl in Hext. now rewrite Hext. }
    cbn [rmatch] in *. rewrite Hno.
    unfold at_boundary. now rewrite Hlast, Hpost.
  - (* one decimal *)
    simpl in Hfrac. apply andb_true_iff in Hfrac as [Hdot Hd1].
    apply plus_more_greedy.
    + exact Hip.
    + simpl. destruct (is_digit dot) eqn:E; [ | reflexivity ].
      destruct dot as [[] [] [] [] [] [] [] []]; discriminate.
    + simpl append. cbn [rmatch]. rewrite Hdot, Hd1.
      destruct post as [ | c post ]; simpl.
      * unfold at_boundary. simpl. now rewrite (digit_is_word d1 Hd1).
      * simpl in Hnd. rewrite Hnd. unfold at_boundary. simpl in *.
        now rewrite (digit_is_word d1 Hd1), Hpost.
  - (* two decimals *)
    simpl in Hfrac. apply andb_true_iff in Hfrac as [Hfrac Hd2].
    apply andb_true_iff in Hfrac as [Hdot Hd1].
    apply plus_more_greedy.
    + exact Hip.
    + simpl. destruct (is_digit dot) eqn:E; [ | reflexivity ].
      destruct dot as [[] [] [] [] [] [] [] []]; discriminate.
    + simpl append. cbn [rmatch]. rewrite Hdot, Hd1, Hd2.
      unfold at_boundary. cbn [word_before]. now rewrite (digit_is_word d2 Hd2), Hpost.
Qed.

(** [re.search] returns the first numeral of the text when it is delimited. *)
Lemma search_first_numeral (pre ip frac post : string) :
  any_char is_digit pre = false ->
  word_before (last_char None pre) = false ->
  all_chars is_digit ip = true -> ip <> EmptyString ->
  is_fraction frac = true ->
  word_after post = false ->
  (frac = EmptyString -> starts_fraction post = false) ->
  search amount_pattern (pre ++ ip ++ frac ++ post) = Some (ip ++ frac).
Proof.
  intros Hpre Hb Hip Hne Hfrac Hpost Hext. unfold search.
  rewrite search_skips_non_digits by exact Hpre.
  destruct (ip ++ frac ++ post) eqn:E.
  - destruct ip; [ congruence | discriminate ].
  - rewrite <- E. clear E.
    assert (Hm := match_numeral (last_char None pre) ip frac post Hb Hip Hne Hfrac Hpost Hext).
    destruct ip as [ | d ip ]; [ congruence | ].
    change (String d ip ++ frac ++ post) with (String d (ip ++ frac ++ post)) in *.
    cbn [search_from]. rewrite Hm. f_equal.
    change (String d (ip ++ frac ++ post)) with (String d ip ++ frac ++ post).
    rewrite <- append_assoc.
    rewrite length_append, Nat.add_sub.
    apply take_append.
Qed.

End TextFacts.

(* ================================================================== *)
(** * The parser: amounts *)

Module AmountSpec.

Import Text TextFacts PyFloat ExpenseParser Statements Examples.
Local Open Scope string_scope.

Lemma clean_no_digit (text : string) :
  any_char is_digit text = false -> any_char is_digit (clean text) = false.
Proof.
  intros H. unfold clean. rewrite no_digit_lower.
  now do 2 apply no_digit_remove_char.
Qed.

Lemma float_neq (x y : float) : PrimFloat.Leibniz.eqb x y = false -> x <> y.
Proof.
  intros H E. apply FloatAxioms.Leibniz.eqb_spec in E. congruence.
Qed.

(** C1, as the code has it.  When the cleaned text is [pre ++ ip ++ frac ++
    post], where [pre] holds no digit and does not end in a word character,
    [ip] is a non-empty run of digits, [frac] is empty or a dot and one or two
    digits, [post] does not start with a word character and, for an integer,
    [post] does not go on with a dot and a digit, then [parse_amount] returns
    the float of the numeral [ip ++ frac], the first number of the text.  In
    particular [$1,234.56] gives 1234.56 and [5 items for $50] gives 5.0. *)
Theorem parse_amount_first_numeral (word_to_num : string -> result float) :
  (forall text pre ip frac post : string,
      clean text = pre ++ ip ++ frac ++ post ->
      any_char is_digit pre = false ->
      word_before (last_char None pre) = false ->
      all_chars is_digit ip = true -> ip <> EmptyString ->
      is_fraction frac = true ->
      word_after post = false ->
      (frac = EmptyString -> starts_fraction post = false) ->
      parse_amount word_to_num text = float_of_decimal (ip ++ frac))
  /\ parse_amount word_to_num "$1,234.56" = 1234.56%float
  /\ parse_amount word_to_num "5 items for $50" = 5%float.
Proof.
  split; [ | split; reflexivity ].
  intros text pre ip frac post Hclean Hpre Hb Hip Hne Hfrac Hpost Hext.
  unfold parse_amount.
  destruct text as [ | c text ].
  - simpl in Hclean. destruct pre; destruct ip; try congruence; discriminate.
  - cbn [is_empty]. cbv zeta. rewrite Hclean.
    now rewrite search_first_numeral.
Qed.

Lemma parse_amount_first_numeral_witness :
  parse_amount knows_twenty "Paid 25.5 for lunch" = float_of_decimal "25.5".
Proof.
  apply (proj1 (parse_amount_first_numeral knows_twenty)
           "Paid 25.5 for lunch" "paid " "25" ".5" " for lunch");
    solve [ reflexivity | discriminate ].
Defined.

(** C1 as stated fails: in [5items for $50] the first substring that is a
    number is [5], glued to a letter; the pattern's word boundary rejects it
    and [parse_amount] returns 50.0. *)
Lemma parse_amount_skips_glued_number :
  clean "5items for $50" = "5" ++ "items for 50"
  /\ forall word_to_num : string -> result float,
      parse_amount word_to_num "5items for $50" = 50%float
      /\ parse_amount word_to_num "5items for $50" <> float_of_decimal "5".
Proof.
  split; [ reflexivity | ]. intros w. split; [ reflexivity | ].
  apply float_neq. reflexivity.
Qed.

(** C2.  For a text with no digit, [parse_amount] returns what the
    written-number library makes of the cleaned text, and [0.0] when the
    library raises or the text is empty.  [parse_amount] is a total function:
    no exception reaches the caller. *)
Theorem parse_amount_without_digits (word_to_num : string -> result float) (text : string) :
  any_char is_digit text = false ->
  parse_amount word_to_num text =
  match (if is_empty text then Raise else word_to_num (clean text)) with
  | Ok amount => amount
  | Raise => 0%float
  end.
Proof.
  intros H. unfold parse_amount.
  destruct (is_empty text); [ reflexivity | ].
  cbv zeta. now rewrite (search_no_digit _ (clean_no_digit text H)).
Qed.

Lemma parse_amount_without_digits_witness :
  parse_amount knows_twenty "Twenty dollars" = 20%float
  /\ parse_amount knows_twenty "Just went to the store" = 0%float
  /\ parse_amount knows_twenty EmptyString = 0%float.
Proof.
  split; [ | split ].
  - rewrite (parse_amount_without_digits knows_twenty "Twenty dollars" eq_refl).
    reflexivity.
  - rewrite (parse_amount_without_digits knows_twenty "Just went to the store" eq_refl).
    reflexivity.
  - rewrite (parse_amount_without_digits knows_twenty EmptyString eq_refl).
    reflexivity.
Defined.

End AmountSpec.

(* ================================================================== *)
(** * The parser: dates *)

Module DateSpec.

Import Text Datetime ExpenseParser Examples.
Local Open Scope string_scope.

Lemma contains_nonempty (p s : string) :
  p <> EmptyString -> contains p s = true -> is_empty s = false.
Proof.
  intros Hp H. destruct s as [ | c s ]; [ | reflexivity ].
  destruct p; [ congruence | discriminate ].
Qed.

Lemma lower_nonempty (s : string) : is_empty (lower s) = is_empty s.
Proof. destruct s; reflexivity. Qed.

Section Dates.

Variable dateparser_parse : string -> option preference -> datetime -> result (option datetime).
Variable add_days : datetime -> Z -> datetime.

(** C3.  A text with [yesterday] in it, whatever its case and whatever else
    it says, gives now minus one day; a text with [tomorrow] and no
    [yesterday] gives now plus one day; the empty text gives now.  The date
    library is not consulted: the result is the same for every resolver. *)
Theorem parse_date_keywords (now : datetime) :
  (forall text : string,
      contains "yesterday" (lower text) = true ->
      parse_date dateparser_parse add_days now text = add_days now (-1))
  /\ (forall text : string,
      contains "yesterday" (lower text) = false ->
      contains "tomorrow" (lower text) = true ->
      parse_date dateparser_parse add_days now text = add_days now 1)
  /\ parse_date dateparser_parse add_days now EmptyString = now.
Proof.
  split; [ | split; [ | reflexivity ] ].
  - intros text H. unfold parse_date.
    assert (E : is_empty text = false).
    { rewrite <- lower_nonempty. now apply (contains_nonempty "yesterday"). }
    rewrite E. cbv zeta. now rewrite H.
  - intros text Hy H. unfold parse_date.
    assert (E : is_empty text = false).
    { rewrite <- lower_nonempty. now apply (contains_nonempty "tomorrow"). }
    rewrite E. cbv zeta. now rewrite Hy, H.
Qed.

(** C4, as the code has it.  For a text with [last] or [ago] and neither
    [yesterday] nor [tomorrow], the past-biased resolver is asked first; when
    it answers [None] the unbiased resolver is asked about the same text, and
    today is returned only when that one finds nothing either, or when a
    resolver raises. *)
Theorem parse_date_past_then_general (now : datetime) (text : string) :
  contains "yesterday" (lower text) = false ->
  contains "tomorrow" (lower text) = false ->
  contains "last" (lower text) || contains "ago" (lower text) = true ->
  parse_date dateparser_parse add_days now text =
  match dateparser_parse text (Some Past) now with
  | Ok (Some parsed) => parsed
  | Ok None =>
      match dateparser_parse text None now with
      | Ok (Some parsed) => parsed
      | Ok None => now
      | Raise => now
      end
  | Raise => now
  end.
Proof.
  intros Hy Ht Hl. unfold parse_date.
  assert (E : is_empty text = false).
  { rewrite <- lower_nonempty. apply orb_true_iff in Hl as [Hl | Hl].
    - now apply (contains_nonempty "last").
    - now apply (contains_nonempty "ago"). }
  rewrite E. cbv zeta. rewrite Hy, Ht, Hl.
  destruct (dateparser_parse text (Some Past) now) as [ [ d | ] | ]; reflexivity.
Qed.

End Dates.

Lemma parse_date_keywords_witness :
  parse_date resolves_unbiased shift_day noon "Lunch YESTERDAY, pay tomorrow"
  = mkDatetime 2025 10 13 12 0 0 0
  /\ parse_date resolves_unbiased shift_day noon "Will spend tomorrow"
     = mkDatetime 2025 10 15 12 0 0 0.
Proof.
  split.
  - rewrite (proj1 (parse_date_keywords resolves_unbiased shift_day noon)
               "Lunch YESTERDAY, pay tomorrow" eq_refl).
    reflexivity.
  - rewrite (proj1 (proj2 (parse_date_keywords resolves_unbiased shift_day noon))
               "Will spend tomorrow" eq_refl eq_refl).
    reflexivity.
Defined.

Lemma parse_date_past_then_general_witness :
  parse_date resolves_nothing shift_day noon "bought it a while ago" = noon.
Proof.
  rewrite (parse_date_past_then_general resolves_nothing shift_day noon
             "bought it a while ago" eq_refl eq_refl eq_refl).
  reflexivity.
Defined.

(** C4 as stated fails: the text has [last], the past-biased resolver finds
    nothing, and [parse_date] still does not return today, because the
    unbiased resolver is consulted next and resolves the text. *)
Lemma parse_date_consults_general_resolver :
  contains "last" (lower "paid last friday") = true
  /\ contains "yesterday" (lower "paid last friday") = false
  /\ contains "tomorrow" (lower "paid last friday") = false
  /\ resolves_unbiased "paid last friday" (Some Past) noon = Ok None
  /\ parse_date resolves_unbiased shift_day noon "paid last friday" <> noon.
Proof.
  do 4 (split; [ reflexivity | ]). discriminate.
Qed.

End DateSpec.

(* ================================================================== *)
(** * Facts about binary64 numbers

    The kernel's float operations are specified by [FloatAxioms] in terms of
    [SpecFloat]; the order and the sign of a sum are read off that
    specification. *)

Module FloatFacts.

Import Statements.
Local Open Scope Z_scope.

Lemma nonneg_spec (x : float) : nonneg x <-> nonneg_sf (Prim2SF x).
Proof.
  unfold nonneg. rewrite leb_spec.
  replace (Prim2SF 0) with (S754_zero false) by reflexivity.
  destruct (Prim2SF x) as [s | s | | s m e]; simpl; try destruct s; simpl;
    split; intros H; try discriminate; try constructor; try inversion H.
Qed.

Lemma iter_pos_invariant {A : Type} (P : A -> Prop) (f : A -> A) :
  (forall a, P a -> P (f a)) -> forall p a, P a -> P (iter_pos f p a).
Proof.
  intros Hf p. induction p as [p IH | p IH | ]; intros a Ha; simpl; auto.
Qed.

Lemma shr_1_nonneg (mrs : shr_record) : 0 <= shr_m mrs -> 0 <= shr_m (shr_1 mrs).
Proof.
  destruct mrs as [m r s]. simpl.
  destruct m as [ | [p | p | ] | p ]; simpl; lia.
Qed.

Lemma shr_nonneg (mrs : shr_record) (e n : Z) :
  0 <= shr_m mrs -> 0 <= shr_m (fst (shr mrs e n)).
Proof.
  intros H. destruct n as [ | p | p ]; simpl; auto.
  apply (iter_pos_invariant (fun r => 0 <= shr_m r)); auto using shr_1_nonneg.
Qed.

Lemma shr_fexp_nonneg (m e : Z) (l : location) :
  0 <= m -> 0 <= shr_m (fst (shr_fexp prec emax m e l)).
Proof.
  intros H. unfold shr_fexp. apply shr_nonneg.
  destruct l as [ | [ | | ] ]; simpl; assumption.
Qed.

Lemma round_nearest_even_nonneg (m : Z) (l : location) :
  0 <= m -> 0 <= round_nearest_even m l.
Proof.
  intros H. destruct l as [ | [ | | ] ]; simpl; try lia.
  destruct (Z.even m); lia.
Qed.

Lemma binary_round_aux_nonneg (m e : Z) (l : location) :
  0 <= m -> nonneg_sf (binary_round_aux prec emax false m e l).
Proof.
  intros H. unfold binary_round_aux.
  pose proof (shr_fexp_nonneg m e l H) as H1.
  destruct (shr_fexp prec emax m e l) as [mrs' e']. simpl in H1.
  pose proof (shr_fexp_nonneg _ e' loc_Exact
                (round_nearest_even_nonneg _ (loc_of_shr_record mrs') H1)) as H2.
  destruct (shr_fexp prec emax _ e' loc_Exact) as [mrs'' e'']. simpl in H2.
  destruct (shr_m mrs'') as [ | p | p ]; try lia; try constructor.
  destruct (e'' <=? emax - prec); constructor.
Qed.

Lemma SFadd_nonneg (a b : spec_float) :
  nonneg_sf a -> nonneg_sf b -> nonneg_sf (SFadd prec emax a b).
Proof.
  intros Ha Hb. destruct Ha as [sa | | ma ea]; destruct Hb as [sb | | mb eb];
    simpl; try constructor.
  - destruct sa, sb; constructor.
  - unfold binary_normalize.
    destruct (shl_align ma ea (Z.min ea eb)) as [pa xa].
    destruct (shl_align mb eb (Z.min ea eb)) as [pb xb]. simpl.
    unfold binary_round.
    destruct (shl_align _ _ _) as [mz ez].
    apply binary_round_aux_nonneg. lia.
Qed.

Lemma add_nonneg (x y : float) : nonneg x -> nonneg y -> nonneg (x + y)%float.
Proof.
  rewrite !nonneg_spec, add_spec. apply SFadd_nonneg.
Qed.

Lemma zero_nonneg : nonneg 0%float.
Proof. reflexivity. Qed.

Ltac cmp_cases :=
  repeat match goal with
         | |- context [ (?a ?= ?b)%Z ] => destruct (Z.compare_spec a b)
         | |- context [ Pos.compare_cont Eq ?a ?b ] =>
             change (Pos.compare_cont Eq a b) with (Pos.compare a b);
             destruct (Pos.compare_spec a b)
         | H : context [ (?a ?= ?b)%Z ] |- _ => destruct (Z.compare_spec a b)
         | H : context [ Pos.compare_cont Eq ?a ?b ] |- _ =>
             change (Pos.compare_cont Eq a b) with (Pos.compare a b) in H;
             destruct (Pos.compare_spec a b)
         end.

Lemma SFltb_leb (a b : spec_float) : SFltb a b = true -> SFleb a b = true.
Proof.
  unfold SFltb, SFleb. destruct (SFcompare a b) as [ [ | | ] | ]; congruence.
Qed.

Lemma ltb_leb (x y : float) : PrimFloat.ltb x y = true -> PrimFloat.leb x y = true.
Proof.
  rewrite ltb_spec, leb_spec. apply SFltb_leb.
Qed.

Lemma SFeqb_not_ltb (a b : spec_float) : SFeqb a b = true -> SFltb b a = false.
Proof.
  unfold SFeqb, SFltb.
  destruct a as [ [ | ] | [ | ] | | [ | ] ma ea ], b as [ [ | ] | [ | ] | | [ | ] mb eb ];
    simpl; try congruence; intros H;
    cmp_cases; subst; simpl in *; try congruence; try lia.
Qed.

(** A tie under [==] is not an ascent under [<]. *)
Lemma eqb_not_ltb (x y : float) : PrimFloat.eqb x y = true -> PrimFloat.ltb y x = false.
Proof.
  rewrite eqb_spec, ltb_spec. apply SFeqb_not_ltb.
Qed.

(** ** The order on the floats that are numbers

    Without NaN, [<] is a strict weak order: [x <= y] can be read as
    [not (y < x)], and it is transitive and total. *)

Lemma number_spec (x : float) : number x <-> Prim2SF x <> S754_nan.
Proof.
  unfold number, PrimFloat.is_nan. rewrite eqb_spec.
  destruct (Prim2SF x) as [ [ | ] | [ | ] | | [ | ] m e ]; unfold SFeqb; simpl;
    try rewrite Z.compare_refl, Pos.compare_cont_refl; simpl;
    split; intros H; try discriminate; try reflexivity; try congruence.
Qed.

Lemma SFltb_asym (a b : spec_float) : SFltb a b = true -> SFltb b a = false.
Proof.
  unfold SFltb.
  destruct a as [ [ | ] | [ | ] | | [ | ] ma ea ], b as [ [ | ] | [ | ] | | [ | ] mb eb ];
    simpl; try congruence; intros H;
    cmp_cases; subst; simpl in *; try congruence; try lia.
Qed.

Lemma ltb_asym (x y : float) : PrimFloat.ltb x y = true -> PrimFloat.ltb y x = false.
Proof.
  rewrite !ltb_spec. apply SFltb_asym.
Qed.

Lemma SFltb_le_trans (a b c : spec_float) :
  a <> S754_nan -> b <> S754_nan -> c <> S754_nan ->
  SFltb b a = false -> SFltb c b = false -> SFltb c a = false.
Proof.
  unfold SFltb.
  destruct a as [ [ | ] | [ | ] | | [ | ] ma ea ], b as [ [ | ] | [ | ] | | [ | ] mb eb ],
    c as [ [ | ] | [ | ] | | [ | ] mc ec ];
    simpl; try congruence; intros _ _ _ H1 H2;
    cmp_cases; subst; simpl in *; try congruence; try lia.
Qed.

(** [x <= y] and [y <= z] give [x <= z]. *)
Lemma ltb_le_trans (x y z : float) :
  number x -> number y -> number z ->
  PrimFloat.ltb y x = false -> PrimFloat.ltb z y = false -> PrimFloat.ltb z x = false.
Proof.
  rewrite !number_spec, !ltb_spec. apply SFltb_le_trans.
Qed.

Lemma SFltb_leb_total (a b : spec_float) :
  a <> S754_nan -> b <> S754_nan -> SFltb a b = false -> SFleb b a = true.
Proof.
  unfold SFltb, SFleb.
  destruct a as [ [ | ] | [ | ] | | [ | ] ma ea ], b as [ [ | ] | [ | ] | | [ | ] mb eb ];
    simpl; try congruence; intros _ _ H;
    cmp_cases; subst; simpl in *; try congruence; try lia.
Qed.

Lemma number_not_ltb_leb (x y : float) :
  number x -> number y -> PrimFloat.ltb x y = false -> PrimFloat.leb y x = true.
Proof.
  rewrite !number_spec, ltb_spec, leb_spec. apply SFltb_leb_total.
Qed.

Lemma SFleb_not_ltb (a b : spec_float) : SFleb b a = true -> SFltb a b = false.
Proof.
  unfold SFltb, SFleb.
  destruct a as [ [ | ] | [ | ] | | [ | ] ma ea ], b as [ [ | ] | [ | ] | | [ | ] mb eb ];
    simpl; try congruence; intros H;
    cmp_cases; subst; simpl in *; try congruence; try lia.
Qed.

Lemma leb_not_ltb (x y : float) : PrimFloat.leb y x = true -> PrimFloat.ltb x y = false.
Proof.
  rewrite ltb_spec, leb_spec. apply SFleb_not_ltb.
Qed.

Lemma number_leb_trans (x y z : float) :
  number x -> number y -> number z ->
  PrimFloat.leb x y = true -> PrimFloat.leb y z = true -> PrimFloat.leb x z = true.
Proof.
  intros Hx Hy Hz Hxy Hyz. apply number_not_ltb_leb; auto.
  apply (ltb_le_trans x y z); auto using leb_not_ltb.
Qed.

End FloatFacts.

(* ================================================================== *)
(** * Facts about [list.sort] *)

Module SortFacts.

Import PyList Statements.

Section Sort.

Context {A : Type} (lt : A -> A -> bool).

(** ** The result is a rearrangement, whatever [<] is *)

Lemma insert_at_perm (k : nat) (x : A) (pre : list A) :
  Permutation (insert_at k x pre) (x :: pre).
Proof.
  unfold insert_at. rewrite <- Permutation_middle. now rewrite firstn_skipn.
Qed.

Lemma binarysort_perm (rest run : list A) :
  Permutation (binarysort lt run rest) (run ++ rest).
Proof.
  revert run. induction rest as [ | x rest IH ]; intros run; simpl.
  - now rewrite app_nil_r.
  - unfold binarysort in *. simpl. rewrite IH. unfold binary_insert.
    rewrite insert_at_perm. simpl. apply Permutation_middle.
Qed.

Lemma sort_run_perm (l : list A) : Permutation (sort_run lt l) l.
Proof.
  unfold sort_run. destruct (count_run lt l) as [ n d ].
  rewrite binarysort_perm.
  transitivity (firstn n l ++ skipn n l); [ | now rewrite firstn_skipn ].
  apply Permutation_app_tail. destruct d; [ symmetry; apply Permutation_rev | reflexivity ].
Qed.

Lemma sort_reverse_perm (l : list A) : Permutation (sort_reverse lt l) l.
Proof.
  unfold sort_reverse. rewrite <- Permutation_rev, sort_run_perm.
  symmetry. apply Permutation_rev.
Qed.

(** ** Keys that [<] orders

    [P] holds of the items whose keys [<] orders: on them [<] is asymmetric
    and [<=], read as the negation of [>], is transitive. *)

Variable P : A -> Prop.
Hypothesis lt_asym : forall x y, P x -> P y -> lt x y = true -> lt y x = false.
Hypothesis le_trans :
  forall x y z, P x -> P y -> P z -> lt y x = false -> lt z y = false -> lt z x = false.

Lemma In_insert_asc (x a : A) (pre : list A) :
  In a (insert_asc lt x pre) <-> a = x \/ In a pre.
Proof.
  induction pre as [ | y pre IH ]; simpl.
  - intuition.
  - destruct (lt x y); simpl; [ intuition | ]. rewrite IH. intuition.
Qed.

Lemma insert_asc_sorted (x : A) (pre : list A) :
  P x -> Forall P pre -> StronglySorted (leq lt) pre ->
  StronglySorted (leq lt) (insert_asc lt x pre).
Proof.
  intros Hx HP Hs. induction Hs as [ | y pre Hs IH Hy ]; simpl.
  - repeat constructor.
  - inversion HP as [ | ? ? Py Ppre ]; subst.
    destruct (lt x y) eqn:E.
    + constructor; [ now constructor | ].
      assert (Hxy : leq lt x y) by (apply lt_asym; auto).
      constructor; [ exact Hxy | ].
      rewrite Forall_forall in *. intros b Hb.
      apply (le_trans x y b); auto. now apply Hy.
    + constructor; [ now apply IH | ].
      apply Forall_forall. intros b Hb. apply In_insert_asc in Hb as [ -> | Hb ].
      * exact E.
      * rewrite Forall_forall in Hy. now apply Hy.
Qed.

Lemma insert_asc_P (x : A) (pre : list A) :
  P x -> Forall P pre -> Forall P (insert_asc lt x pre).
Proof.
  intros Hx HP. apply Forall_forall. intros a Ha.
  apply In_insert_asc in Ha as [ -> | Ha ]; [ exact Hx | ].
  rewrite Forall_forall in HP. now apply HP.
Qed.

(** The place the scan from the left finds, by position: after the items
    that are not greater than [x], before the first that is. *)
Lemma insert_asc_at (x : A) (pre : list A) :
  forall k : nat,
    k <= List.length pre ->
    (forall i, i < k -> lt x (nth i pre x) = false) ->
    (k < List.length pre -> lt x (nth k pre x) = true) ->
    insert_asc lt x pre = insert_at k x pre.
Proof.
  induction pre as [ | y pre IH ]; intros k Hk Hlo Hhi; simpl in *.
  - assert (k = 0) by lia. subst. reflexivity.
  - destruct k as [ | k ].
    + rewrite Hhi by lia. reflexivity.
    + rewrite (Hlo 0) by lia. unfold insert_at. simpl. f_equal.
      apply IH; [ lia | | ].
      * intros i Hi. apply (Hlo (S i)). lia.
      * intros H. apply Hhi. lia.
Qed.

Lemma sorted_nth (pre : list A) (d : A) :
  StronglySorted (leq lt) pre ->
  forall i j, i <= j -> j < List.length pre -> leq lt (nth i pre d) (nth j pre d) \/ i = j.
Proof.
  induction 1 as [ | y pre Hs IH Hy ]; intros i j Hij Hj; simpl in *; [ lia | ].
  destruct i as [ | i ], j as [ | j ]; try lia.
  - left. rewrite Forall_forall in Hy. apply Hy. apply nth_In. lia.
  - destruct (IH i j) as [ H | -> ]; auto; lia.
Qed.

(** In a sorted list the items greater than [x] are a suffix. *)
Lemma greater_suffix (x : A) (pre : list A) :
  P x -> Forall P pre -> StronglySorted (leq lt) pre ->
  forall i j, i <= j -> j < List.length pre ->
    lt x (nth i pre x) = true -> lt x (nth j pre x) = true.
Proof.
  intros Hx HP Hs i j Hij Hj Hi.
  destruct (sorted_nth pre x Hs i j Hij Hj) as [ H | -> ]; [ | exact Hi ].
  destruct (lt x (nth j pre x)) eqn:E; [ reflexivity | ].
  rewrite Forall_forall in HP.
  rewrite (le_trans (nth i pre x) (nth j pre x) x) in Hi; auto.
  - apply HP, nth_In. lia.
  - apply HP, nth_In. lia.
Qed.

(** The binary search keeps its two invariants ([pivot >= all in [0, l)] and
    [pivot < all in [r, n)]) and ends, within its fuel, with [l = r]. *)
Lemma bisect_spec (x : A) (pre : list A) :
  P x -> Forall P pre -> StronglySorted (leq lt) pre ->
  forall fuel l r,
    l <= r -> r <= List.length pre -> r - l <= fuel ->
    (forall i, i < l -> lt x (nth i pre x) = false) ->
    (forall i, r <= i -> i < List.length pre -> lt x (nth i pre x) = true) ->
    bisect lt fuel pre x l r <= List.length pre
    /\ (forall i, i < bisect lt fuel pre x l r -> lt x (nth i pre x) = false)
    /\ (bisect lt fuel pre x l r < List.length pre ->
        lt x (nth (bisect lt fuel pre x l r) pre x) = true).
Proof.
  intros Hx HP Hs. induction fuel as [ | fuel IH ]; intros l r Hlr Hr Hf Hlo Hhi;
    cbn [bisect].
  - assert (l = r) by lia. subst. repeat split; auto; lia.
  - destruct (l <? r)%nat eqn:E.
    + apply Nat.ltb_lt in E.
      assert (Hp : l <= l + (r - l) / 2 < r).
      { assert ((r - l) / 2 < r - l) by (apply Nat.div_lt; lia). lia. }
      set (p := l + (r - l) / 2) in *.
      destruct (lt x (nth p pre x)) eqn:Ep.
      * apply IH; auto; try lia.
        intros i Hi Hn. destruct (le_lt_dec r i); [ now apply Hhi | ].
        apply (greater_suffix x pre Hx HP Hs p i); auto; lia.
      * apply IH; auto; try lia.
        intros i Hi. destruct (le_lt_dec l i); [ | now apply Hlo ].
        destruct (lt x (nth i pre x)) eqn:Ei; [ | reflexivity ].
        rewrite (greater_suffix x pre Hx HP Hs i p) in Ep; auto; try discriminate; lia.
    + apply Nat.ltb_ge in E. assert (l = r) by lia. subst. repeat split; auto; lia.
Qed.

(** In a sorted list the binary search finds the place of the scan. *)
Lemma binary_insert_sorted (x : A) (pre : list A) :
  P x -> Forall P pre -> StronglySorted (leq lt) pre ->
  binary_insert lt pre x = insert_asc lt x pre.
Proof.
  intros Hx HP Hs. unfold binary_insert. symmetry.
  destruct (bisect_spec x pre Hx HP Hs (List.length pre) 0 (List.length pre))
    as (H1 & H2 & H3); try lia.
  apply insert_asc_at; auto.
Qed.

Lemma isort_sorted (l : list A) :
  forall acc, Forall P l -> Forall P acc -> StronglySorted (leq lt) acc ->
    StronglySorted (leq lt) (isort lt l acc) /\ Forall P (isort lt l acc).
Proof.
  induction l as [ | x l IH ]; intros acc Hl Hacc Hs; simpl; [ auto | ].
  inversion Hl; subst. apply IH; auto using insert_asc_sorted, insert_asc_P.
Qed.

Lemma binarysort_sorted (rest : list A) :
  forall run, Forall P rest -> Forall P run -> StronglySorted (leq lt) run ->
    binarysort lt run rest = isort lt rest run.
Proof.
  induction rest as [ | x rest IH ]; intros run Hrest Hrun Hs; [ reflexivity | ].
  inversion Hrest; subst. unfold binarysort, isort in *. simpl.
  rewrite binary_insert_sorted by auto.
  apply IH; auto using insert_asc_sorted, insert_asc_P.
Qed.

(** What [count_run] counts is a run. *)
Lemma run_length_chain (d : bool) (l : list A) :
  forall prev, chain lt d prev (firstn (run_length lt d prev l) l).
Proof.
  induction l as [ | x l IH ]; intros prev; simpl; [ exact I | ].
  destruct (Bool.eqb (lt x prev) d) eqn:E; simpl; [ | exact I ].
  split; [ now apply eqb_prop | apply IH ].
Qed.

Lemma insert_asc_last (x : A) (acc : list A) :
  Forall (fun a => lt x a = false) acc -> insert_asc lt x acc = acc ++ [x].
Proof.
  induction 1 as [ | a acc Ha Hacc IH ]; simpl; [ reflexivity | ].
  now rewrite Ha, IH.
Qed.

(** The insertion sort leaves an ascending run as it is ... *)
Lemma isort_ascending (l : list A) :
  forall prev acc,
    P prev -> Forall P acc -> Forall P l ->
    Forall (fun a => lt prev a = false) acc ->
    chain lt false prev l ->
    isort lt l (acc ++ [prev]) = acc ++ prev :: l.
Proof.
  induction l as [ | x l IH ]; intros prev acc Hprev Hacc Hl Hle Hc; [ reflexivity | ].
  destruct Hc as [ Hx Hc ]. inversion Hl; subst.
  assert (Hall : Forall (fun a => lt x a = false) (acc ++ [prev])).
  { apply Forall_app. split; [ | now repeat constructor ].
    rewrite Forall_forall in *. intros a Ha.
    apply (le_trans a prev x); auto. }
  unfold isort in *. simpl. rewrite insert_asc_last by exact Hall.
  rewrite IH; auto.
  - now rewrite <- app_assoc.
  - apply Forall_app. split; [ exact Hacc | now repeat constructor ].
Qed.

(** ... and reverses a strictly descending one. *)
Lemma istable_sortending (l : list A) :
  forall prev acc, chain lt true prev l -> isort lt l (prev :: acc) = rev l ++ prev :: acc.
Proof.
  induction l as [ | x l IH ]; intros prev acc Hc; [ reflexivity | ].
  destruct Hc as [ Hx Hc ]. unfold isort in *. simpl. rewrite Hx.
  rewrite IH by exact Hc. now rewrite <- app_assoc.
Qed.

Lemma isort_app (l1 l2 acc : list A) :
  isort lt (l1 ++ l2) acc = isort lt l2 (isort lt l1 acc).
Proof. apply fold_left_app. Qed.

(** On keys that [<] orders, the sort of a short list is the insertion sort
    that takes the items from left to right. *)
Lemma sort_run_isort (l : list A) : Forall P l -> sort_run lt l = isort lt l [].
Proof.
  intros HP. unfold sort_run.
  destruct (count_run lt l) as [ n d ] eqn:E.
  assert (Hrun : (if d then rev (firstn n l) else firstn n l) = isort lt (firstn n l) []).
  { destruct l as [ | x [ | y l ] ]; simpl in E; injection E as <- <-; try reflexivity.
    pose proof (run_length_chain (lt y x) l y) as Hc.
    inversion HP as [ | ? ? Px HP' ]; subst. inversion HP' as [ | ? ? Py Pl ]; subst.
    assert (Pl' : Forall P (firstn (run_length lt (lt y x) y l) l)).
    { rewrite <- (firstn_skipn (run_length lt (lt y x) y l) l) in Pl.
      now apply Forall_app in Pl. }
    cbn [plus firstn]. destruct (lt y x) eqn:Eyx.
    - cbn [rev]. change (isort lt (x :: y :: ?r) []) with (isort lt (y :: r) [x]).
      rewrite (istable_sortending (y :: _) x []) by (split; auto).
      cbn [rev]. now rewrite <- !app_assoc.
    - change (isort lt (x :: y :: ?r) []) with (isort lt (y :: r) ([] ++ [x])).
      rewrite (isort_ascending (y :: _) x []); auto.
      split; auto. }
  rewrite Hrun.
  assert (Hparts : Forall P (firstn n l) /\ Forall P (skipn n l)).
  { apply Forall_app. now rewrite firstn_skipn. }
  destruct Hparts as [ Hfirst Hskip ].
  destruct (isort_sorted (firstn n l) [] Hfirst) as [ Hs HPs ]; try constructor.
  rewrite binarysort_sorted by auto.
  rewrite <- isort_app. now rewrite firstn_skipn.
Qed.

End Sort.

End SortFacts.

(* ================================================================== *)
(** * Facts about the aggregator *)

Module AnalyzerFacts.

Import Datetime Models ExpenseAnalyzer Statements FloatFacts.

Lemma value_eqb_eq (a b : value) : value_eqb a b = true <-> a = b.
Proof.
  destruct a as [ s | x ], b as [ t | y ]; simpl.
  - rewrite String.eqb_eq. split; congruence.
  - split; discriminate.
  - split; discriminate.
  - rewrite FloatAxioms.Leibniz.eqb_spec. split; congruence.
Qed.

Lemma value_eqb_refl (a : value) : value_eqb a a = true.
Proof. now apply value_eqb_eq. Qed.

Lemma value_eqb_neq (a b : value) : value_eqb a b = false <-> a <> b.
Proof.
  rewrite <- value_eqb_eq. destruct (value_eqb a b); split; congruence.
Qed.

Lemma value_eq_dec (a b : value) : {a = b} + {a <> b}.
Proof.
  destruct (value_eqb a b) eqn:E.
  - left. now apply value_eqb_eq.
  - right. now apply value_eqb_neq.
Qed.

Lemma before_length {A : Type} (a b : A) (l : list A) :
  before a b l -> 2 <= List.length l.
Proof.
  intros (l1 & l2 & l3 & ->). rewrite length_app. simpl. rewrite length_app. simpl. lia.
Qed.

Lemma before_cons {A : Type} (a b y : A) (l : list A) :
  before a b l -> before a b (y :: l).
Proof.
  intros (l1 & l2 & l3 & ->). now exists (y :: l1), l2, l3.
Qed.

Lemma before_head {A : Type} (y b : A) (l : list A) : In b l -> before y b (y :: l).
Proof.
  intros H. apply in_split in H as (l2 & l3 & ->). now exists [], l2, l3.
Qed.

Lemma before_cons_inv {A : Type} (a b y : A) (l : list A) :
  before a b (y :: l) -> (a = y /\ In b l) \/ before a b l.
Proof.
  intros (l1 & l2 & l3 & E). destruct l1 as [ | z l1 ]; simpl in E.
  - injection E as -> ->. left. split; [ reflexivity | ].
    apply in_or_app. right. now left.
  - injection E as -> ->. right. now exists l1, l2, l3.
Qed.

Lemma before_snoc_inv {A : Type} (a b c : A) (l : list A) :
  before a b (l ++ [c]) -> before a b l \/ (In a l /\ b = c).
Proof.
  intros (l1 & l2 & l3 & E).
  destruct (exists_last (l := b :: l3)) as (l3' & x & E3); [ discriminate | ].
  rewrite E3 in E.
  replace (l1 ++ a :: l2 ++ l3' ++ [x]) with ((l1 ++ a :: l2 ++ l3') ++ [x]) in E
    by (rewrite <- !app_assoc; simpl; now rewrite <- app_assoc).
  apply app_inj_tail in E as [-> ->].
  destruct l3' as [ | z l3' ]; simpl in E3.
  - injection E3 as ->. right. split; [ | reflexivity ].
    rewrite app_nil_r. apply in_or_app. right. now left.
  - injection E3 as <- ->. left. now exists l1, l2, l3'.
Qed.

Lemma before_map {A B : Type} (f : A -> B) (a b : A) (l : list A) :
  before a b l -> before (f a) (f b) (map f l).
Proof.
  intros (l1 & l2 & l3 & ->). exists (map f l1), (map f l2), (map f l3).
  rewrite map_app. simpl. now rewrite map_app.
Qed.

(** ** The dictionary of running totals *)

Lemma keys_items (d : category_data) : map ct_category (items d) = keys d.
Proof.
  unfold items, keys. rewrite map_map. apply map_ext.
  intros [ k [ t c ] ]. reflexivity.
Qed.

Lemma accumulate_snoc (l : list Expense) (e : Expense) :
  accumulate (l ++ [e]) = bump (category e) (amount e) (accumulate l).
Proof.
  unfold accumulate. now rewrite fold_left_app.
Qed.

Lemma bump_keys (c : value) (a : float) (d : category_data) :
  keys (bump c a d) = if in_dec value_eq_dec c (keys d) then keys d else keys d ++ [c].
Proof.
  induction d as [ | [ k [ t n ] ] d IH ]; simpl.
  - reflexivity.
  - destruct (value_eqb k c) eqn:E; simpl.
    + apply value_eqb_eq in E. subst k.
      destruct (value_eq_dec c c); [ | congruence ].
      destruct (in_dec value_eq_dec c (keys d)); reflexivity.
    + apply value_eqb_neq in E. fold (keys (bump c a d)). rewrite IH.
      destruct (value_eq_dec k c); [ congruence | ].
      destruct (in_dec value_eq_dec c (keys d)); reflexivity.
Qed.

Lemma keys_accumulate_In (l : list Expense) (c : value) :
  In c (keys (accumulate l)) <-> In c (map category l).
Proof.
  induction l as [ | e l IH ] using rev_ind.
  - reflexivity.
  - rewrite accumulate_snoc, bump_keys, map_app, in_app_iff. simpl.
    destruct (in_dec value_eq_dec (category e) (keys (accumulate l))) as [ Hin | Hout ].
    + rewrite IH. split; [ tauto | ].
      intros [ H | [ <- | [] ] ]; [ exact H | now apply IH ].
    + rewrite in_app_iff, IH. simpl. tauto.
Qed.

Lemma keys_accumulate_NoDup (l : list Expense) : NoDup (keys (accumulate l)).
Proof.
  induction l as [ | e l IH ] using rev_ind.
  - constructor.
  - rewrite accumulate_snoc, bump_keys.
    destruct (in_dec value_eq_dec (category e) (keys (accumulate l))) as [ Hin | Hout ].
    + exact IH.
    + apply NoDup_app; [ exact IH | repeat constructor; simpl; tauto | ].
      intros x Hx [ <- | [] ]. contradiction.
Qed.

(** Keys stand in the order in which the categories first occur. *)
Lemma keys_accumulate_order (l : list Expense) (ca cb : value) :
  before ca cb (keys (accumulate l)) ->
  exists p e q, l = p ++ e :: q /\ category e = ca /\ ~ In cb (map category p).
Proof.
  induction l as [ | e l IH ] using rev_ind.
  - intros H. apply before_length in H. simpl in H. lia.
  - rewrite accumulate_snoc, bump_keys.
    destruct (in_dec value_eq_dec (category e) (keys (accumulate l))) as [ Hin | Hout ].
    + intros H. destruct (IH H) as (p & e0 & q & -> & Hc & Hp).
      exists p, e0, (q ++ [e]). rewrite <- app_assoc. simpl. auto.
    + intros H. apply before_snoc_inv in H as [ H | [ Ha -> ] ].
      * destruct (IH H) as (p & e0 & q & -> & Hc & Hp).
        exists p, e0, (q ++ [e]). rewrite <- app_assoc. simpl. auto.
      * apply keys_accumulate_In, in_map_iff in Ha as (e0 & Hc & He0).
        apply in_split in He0 as (p & q & ->).
        exists p, e0, (q ++ [e]). rewrite <- app_assoc. simpl.
        split; [ reflexivity | split; [ exact Hc | ] ].
        intros Hp. apply Hout, keys_accumulate_In.
        rewrite map_app. apply in_or_app. now left.
Qed.

(** ** What an entry holds *)

Lemma sum_snoc (xs : list float) (a : float) : sum (xs ++ [a]) = (sum xs + a)%float.
Proof.
  unfold sum. now rewrite fold_left_app.
Qed.

Lemma records_of_snoc (k : value) (l : list Expense) (e : Expense) :
  records_of k (l ++ [e])
  = records_of k l ++ (if value_eqb k (category e) then [e] else []).
Proof.
  unfold records_of. rewrite filter_app. reflexivity.
Qed.

Lemma entry_snoc_other (l : list Expense) (e : Expense) (k : value) :
  k <> category e -> entry (l ++ [e]) k = entry l k.
Proof.
  intros H. unfold entry. rewrite records_of_snoc.
  apply value_eqb_neq in H. rewrite H. now rewrite app_nil_r.
Qed.

Lemma entry_snoc_same (l : list Expense) (e : Expense) :
  entry (l ++ [e]) (category e)
  = (category e, ((sum (map amount (records_of (category e) l)) + amount e)%float,
                  List.length (records_of (category e) l) + 1)).
Proof.
  unfold entry. rewrite records_of_snoc, value_eqb_refl.
  rewrite map_app, length_app. cbn [map List.length]. now rewrite sum_snoc.
Qed.

Lemma records_of_absent (c : value) (l : list Expense) :
  ~ In c (map category l) -> records_of c l = [].
Proof.
  intros H. induction l as [ | e l IH ]; [ reflexivity | ].
  simpl in *. destruct (value_eqb c (category e)) eqn:E.
  - apply value_eqb_eq in E. exfalso. apply H. left. now symmetry.
  - apply IH. intros Hin. apply H. now right.
Qed.

Lemma bump_entries (l : list Expense) (e : Expense) (K : list value) :
  NoDup K ->
  bump (category e) (amount e) (map (entry l) K)
  = if in_dec value_eq_dec (category e) K
    then map (entry (l ++ [e])) K
    else map (entry (l ++ [e])) K ++ [(category e, ((0 + amount e)%float, 0 + 1))].
Proof.
  induction K as [ | k K IH ]; intros HK.
  - reflexivity.
  - inversion HK as [ | ? ? Hk HK' ]; subst.
    simpl. destruct (value_eqb k (category e)) eqn:E.
    + apply value_eqb_eq in E. subst k.
      destruct (value_eq_dec (category e) (category e)); [ | congruence ].
      rewrite entry_snoc_same. f_equal.
      apply map_ext_in. intros k' Hk'. symmetry. apply entry_snoc_other.
      intros ->. contradiction.
    + apply value_eqb_neq in E.
      destruct (value_eq_dec k (category e)); [ congruence | ].
      rewrite (IH HK'), (entry_snoc_other l e k E).
      destruct (in_dec value_eq_dec (category e) K); reflexivity.
Qed.

(** Every entry holds the sum, accumulated from [0.0] in input order, and the
    number of the records of its category. *)
Lemma accumulate_entries (l : list Expense) :
  accumulate l = map (entry l) (keys (accumulate l)).
Proof.
  induction l as [ | e l IH ] using rev_ind.
  - reflexivity.
  - rewrite accumulate_snoc. rewrite bump_keys.
    rewrite IH at 1. rewrite (bump_entries l e _ (keys_accumulate_NoDup l)).
    destruct (in_dec value_eq_dec (category e) (keys (accumulate l))) as [ Hin | Hout ].
    + reflexivity.
    + rewrite map_app. f_equal. simpl. f_equal.
      rewrite entry_snoc_same, records_of_absent; [ reflexivity | ].
      intros H. now apply Hout, keys_accumulate_In.
Qed.

Lemma items_entry (l : list Expense) (ct : CategoryTotal) :
  In ct (items (accumulate l)) ->
  total ct = sum (map amount (records_of (ct_category ct) l))
  /\ count ct = List.length (records_of (ct_category ct) l).
Proof.
  rewrite accumulate_entries. unfold items. rewrite map_map.
  intros H. apply in_map_iff in H as (k & <- & _). simpl. auto.
Qed.

(** The counts add up to the number of records. *)
Lemma bump_count (c : value) (a : float) (d : category_data) :
  list_sum (map count (items (bump c a d))) = list_sum (map count (items d)) + 1.
Proof.
  induction d as [ | [ k [ t n ] ] d IH ]; simpl.
  - reflexivity.
  - destruct (value_eqb k c); simpl.
    + lia.
    + fold (items (bump c a d)). fold (items d). rewrite IH. lia.
Qed.

Lemma accumulate_count (l : list Expense) :
  list_sum (map count (items (accumulate l))) = List.length l.
Proof.
  induction l as [ | e l IH ] using rev_ind.
  - reflexivity.
  - rewrite accumulate_snoc, bump_count, IH, length_app. reflexivity.
Qed.

(** ** Sums of amounts that are not negative *)

Lemma sum_nonneg (xs : list float) : Forall nonneg xs -> nonneg (sum xs).
Proof.
  induction xs as [ | x xs IH ] using rev_ind; intros H.
  - exact zero_nonneg.
  - apply Forall_app in H as [ Hxs Hx ]. inversion Hx; subst.
    rewrite sum_snoc. apply add_nonneg; auto.
Qed.

Lemma items_nonneg (l : list Expense) :
  Forall (fun e => nonneg (amount e)) l ->
  Forall (fun ct => nonneg (total ct)) (items (accumulate l)).
Proof.
  intros H. apply Forall_forall. intros ct Hct.
  destruct (items_entry l ct Hct) as [ -> _ ].
  apply sum_nonneg. apply Forall_map. apply Forall_forall.
  intros e He. unfold records_of in He. apply filter_In in He as [ He _ ].
  revert e He. now apply Forall_forall.
Qed.

(** ** The stable sort *)

Lemma insert_stable_perm (x : CategoryTotal) (l : list CategoryTotal) :
  Permutation (insert_stable x l) (x :: l).
Proof.
  induction l as [ | y l IH ]; simpl.
  - reflexivity.
  - destruct (PrimFloat.ltb (total x) (total y)).
    + rewrite IH. apply perm_swap.
    + reflexivity.
Qed.

Lemma stable_sort_perm (l : list CategoryTotal) : Permutation (stable_sort l) l.
Proof.
  induction l as [ | x l IH ]; simpl.
  - reflexivity.
  - rewrite insert_stable_perm. now constructor.
Qed.

(** The stable sort is one way to sort the long lists; the examples, all
    short, are stated with it. *)
Definition stable_merge : merge_sort :=
  mkMergeSort stable_sort stable_sort_perm (fun l _ => eq_refl).

Lemma insert_stable_sorted (x : CategoryTotal) (l : list CategoryTotal) :
  number (total x) -> Forall (fun ct => number (total ct)) l ->
  StronglySorted descending l -> StronglySorted descending (insert_stable x l).
Proof.
  intros Hx Hl Hs. induction Hs as [ | y l Hs IH Hy ]; simpl.
  - repeat constructor.
  - inversion Hl as [ | ? ? Hny Hnl ]; subst.
    destruct (PrimFloat.ltb (total x) (total y)) eqn:E.
    + constructor; [ now apply IH | ].
      apply (Permutation_Forall (Permutation_sym (insert_stable_perm x l))).
      constructor; [ | exact Hy ]. now apply ltb_leb.
    + constructor; [ now constructor | ].
      assert (Hyx : descending x y) by now apply number_not_ltb_leb.
      constructor; [ exact Hyx | ].
      rewrite Forall_forall in *. intros b Hb.
      apply (number_leb_trans (total b) (total y) (total x)); auto.
      now apply Hy.
Qed.

Lemma stable_sort_sorted (l : list CategoryTotal) :
  Forall (fun ct => number (total ct)) l -> StronglySorted descending (stable_sort l).
Proof.
  induction l as [ | x l IH ]; intros H; simpl.
  - constructor.
  - inversion H; subst. apply insert_stable_sorted; auto.
    now apply (Permutation_Forall (Permutation_sym (stable_sort_perm l))).
Qed.

(** The sort is stable: it moves [b] in front of an earlier [a] only when
    [a]'s total is smaller. *)
Lemma insert_stable_before (x a b : CategoryTotal) (l : list CategoryTotal) :
  before a b (insert_stable x l) ->
  (a = x /\ In b l)
  \/ (b = x /\ PrimFloat.ltb (total x) (total a) = true)
  \/ before a b l.
Proof.
  induction l as [ | y l IH ]; simpl.
  - intros H. apply before_length in H. simpl in H. lia.
  - destruct (PrimFloat.ltb (total x) (total y)) eqn:E; intros H.
    + apply before_cons_inv in H as [ [ -> Hb ] | H ].
      * apply (Permutation_in _ (insert_stable_perm x l)) in Hb as [ <- | Hb ].
        -- right. left. auto.
        -- right. right. now apply before_head.
      * destruct (IH H) as [ [ -> Hb ] | [ [ -> Hlt ] | Hbl ] ].
        -- left. split; [ reflexivity | now right ].
        -- right. left. auto.
        -- right. right. now apply before_cons.
    + apply before_cons_inv in H as [ [ -> Hb ] | H ]; auto.
Qed.

Lemma stable_sort_stable (a b : CategoryTotal) (l : list CategoryTotal) :
  before a b (stable_sort l) ->
  PrimFloat.ltb (total b) (total a) = false ->
  before a b l.
Proof.
  induction l as [ | x l IH ]; simpl; intros H Hlt.
  - apply before_length in H. simpl in H. lia.
  - apply insert_stable_before in H as [ [ -> Hb ] | [ [ -> Hx ] | H ] ].
    + apply before_head. now apply (Permutation_in _ (stable_sort_perm l)).
    + congruence.
    + apply before_cons. now apply IH.
Qed.

Lemma list_sum_perm (xs ys : list nat) : Permutation xs ys -> list_sum xs = list_sum ys.
Proof.
  induction 1; simpl; lia.
Qed.

(** ** [list.sort] on totals that are numbers

    [<] orders the entries whose totals are not NaN, and on them what
    [list.sort] does with [reverse=True] is the stable sort. *)

Lemma key_lt_asym (x y : CategoryTotal) :
  number (total x) -> number (total y) -> key_lt x y = true -> key_lt y x = false.
Proof.
  intros _ _. apply ltb_asym.
Qed.

Lemma key_le_trans (x y z : CategoryTotal) :
  number (total x) -> number (total y) -> number (total z) ->
  key_lt y x = false -> key_lt z y = false -> key_lt z x = false.
Proof.
  apply ltb_le_trans.
Qed.

Lemma insert_stable_all (x : CategoryTotal) (m : list CategoryTotal) :
  Forall (fun z => key_lt x z = true) m -> insert_stable x m = m ++ [x].
Proof.
  unfold key_lt. induction 1 as [ | z m Hz Hm IH ]; simpl; [ reflexivity | ].
  now rewrite Hz, IH.
Qed.

Lemma insert_stable_snoc (x y : CategoryTotal) (m : list CategoryTotal) :
  key_lt x y = false -> insert_stable x (m ++ [y]) = insert_stable x m ++ [y].
Proof.
  unfold key_lt. intros H. induction m as [ | z m IH ]; simpl.
  - now rewrite H.
  - destruct (PrimFloat.ltb (total x) (total z)); [ now rewrite IH | reflexivity ].
Qed.

(** Inserting from the left in an ascending list is inserting from the left
    in the reversed, descending, list. *)
Lemma rev_insert_asc (x : CategoryTotal) (pre : list CategoryTotal) :
  number (total x) -> Forall (fun ct => number (total ct)) pre ->
  StronglySorted (leq key_lt) pre ->
  rev (insert_asc key_lt x pre) = insert_stable x (rev pre).
Proof.
  intros Hx HP Hs. induction Hs as [ | y pre Hs IH Hy ]; [ reflexivity | ].
  inversion HP as [ | ? ? Py Ppre ]; subst.
  cbn [insert_asc]. destruct (key_lt x y) eqn:E.
  - cbn [rev]. symmetry. apply insert_stable_all.
    apply Forall_app. split; [ | now repeat constructor ].
    apply Forall_rev. rewrite Forall_forall in *. intros z Hz.
    destruct (key_lt x z) eqn:Ez; [ reflexivity | ].
    rewrite (key_le_trans y z x) in E; auto. now apply Hy.
  - cbn [rev]. rewrite IH by assumption. symmetry. now apply insert_stable_snoc.
Qed.

Lemma fold_insert_asc (l : list CategoryTotal) :
  Forall (fun ct => number (total ct)) l ->
  StronglySorted (leq key_lt) (fold_right (insert_asc key_lt) [] l)
  /\ Forall (fun ct => number (total ct)) (fold_right (insert_asc key_lt) [] l)
  /\ rev (fold_right (insert_asc key_lt) [] l) = stable_sort l.
Proof.
  induction 1 as [ | x l Hx Hl (Hs & HP & Hrev) ]; simpl.
  - repeat constructor.
  - split; [ | split ].
    + now apply (SortFacts.insert_asc_sorted key_lt (fun ct => number (total ct))
                   key_lt_asym key_le_trans).
    + now apply SortFacts.insert_asc_P.
    + rewrite rev_insert_asc by assumption. now rewrite Hrev.
Qed.

Lemma sort_reverse_stable (l : list CategoryTotal) :
  Forall (fun ct => number (total ct)) l -> PyList.sort_reverse key_lt l = stable_sort l.
Proof.
  intros HP. unfold PyList.sort_reverse.
  rewrite (SortFacts.sort_run_isort key_lt (fun ct => number (total ct))
             key_lt_asym key_le_trans) by now apply Forall_rev.
  unfold isort.
  rewrite <- (fold_left_rev_right (insert_asc key_lt)), rev_involutive.
  now apply fold_insert_asc.
Qed.

Section Totals.

Variable merge : merge_sort.

Lemma sort_totals_perm (l : list CategoryTotal) : Permutation (sort_totals merge l) l.
Proof.
  unfold sort_totals. destruct (List.length l <? 64)%nat.
  - apply SortFacts.sort_reverse_perm.
  - apply sort_long_perm.
Qed.

Lemma sort_totals_stable (l : list CategoryTotal) :
  Forall (fun ct => number (total ct)) l -> sort_totals merge l = stable_sort l.
Proof.
  intros H. unfold sort_totals. destruct (List.length l <? 64)%nat.
  - now apply sort_reverse_stable.
  - now apply sort_long_stable.
Qed.

(** ** [calculate_category_totals] *)

Lemma totals_perm (l : list Expense) :
  Permutation (calculate_category_totals merge l) (items (accumulate l)).
Proof. apply sort_totals_perm. Qed.

Lemma totals_categories (l : list Expense) (c : value) :
  In c (map ct_category (calculate_category_totals merge l)) <-> In c (map category l).
Proof.
  rewrite <- keys_accumulate_In, <- keys_items.
  split; apply Permutation_in; apply Permutation_map;
    [ | symmetry ]; apply totals_perm.
Qed.

Lemma totals_NoDup (l : list Expense) :
  NoDup (map ct_category (calculate_category_totals merge l)).
Proof.
  apply (Permutation_NoDup (l := map ct_category (items (accumulate l)))).
  - apply Permutation_map. symmetry. apply totals_perm.
  - rewrite keys_items. apply keys_accumulate_NoDup.
Qed.

Lemma totals_entry (l : list Expense) (ct : CategoryTotal) :
  In ct (calculate_category_totals merge l) ->
  total ct = sum (map amount (records_of (ct_category ct) l))
  /\ count ct = List.length (records_of (ct_category ct) l).
Proof.
  intros H. apply items_entry. now apply (Permutation_in _ (totals_perm l)).
Qed.

Lemma totals_counts (l : list Expense) :
  list_sum (map count (calculate_category_totals merge l)) = List.length l.
Proof.
  rewrite <- accumulate_count. apply list_sum_perm, Permutation_map, totals_perm.
Qed.

(** When no total is NaN the result is the stable sort of the entries. *)
Lemma totals_stable_sort (l : list Expense) :
  Forall (fun ct => number (total ct)) (calculate_category_totals merge l) ->
  calculate_category_totals merge l = stable_sort (items (accumulate l)).
Proof.
  intros H. apply sort_totals_stable.
  now apply (Permutation_Forall (totals_perm l)).
Qed.

Lemma totals_sorted (l : list Expense) :
  Forall (fun ct => number (total ct)) (calculate_category_totals merge l) ->
  StronglySorted descending (calculate_category_totals merge l).
Proof.
  intros H. rewrite (totals_stable_sort l H). apply stable_sort_sorted.
  now apply (Permutation_Forall (totals_perm l)).
Qed.

Lemma totals_ties (l : list Expense) (a b : CategoryTotal) :
  Forall (fun ct => number (total ct)) (calculate_category_totals merge l) ->
  before a b (calculate_category_totals merge l) ->
  PrimFloat.eqb (total a) (total b) = true ->
  exists p e q,
    l = p ++ e :: q /\ category e = ct_category a /\ ~ In (ct_category b) (map category p).
Proof.
  intros Hn H Htie. apply keys_accumulate_order.
  rewrite <- keys_items. apply before_map.
  rewrite (totals_stable_sort l Hn) in H.
  apply stable_sort_stable; [ exact H | now apply eqb_not_ltb ].
Qed.

End Totals.

End AnalyzerFacts.

(* ================================================================== *)
(** * The aggregator: category totals *)

Module AnalyzerSpec.

Import Datetime Models ExpenseAnalyzer Statements Examples FloatFacts AnalyzerFacts.

(** C6, as the code has it.  For every list the result has one entry for each
    category of the input and no category twice.  When no total in the result
    is NaN, the entries stand by total descending, and of two entries with
    equal totals the one listed first is the one whose category occurs first
    in the input: some record [e] of its category has no record of the other
    category before it.  On the fixture of the tests the result is
    Entertainment 50.0 (1), Gas 45.0 (1), Food 41.25 (2). *)
Theorem calculate_category_totals_ordered (merge : merge_sort) :
  (forall l : list Expense,
      let out := calculate_category_totals merge l in
      NoDup (map ct_category out)
      /\ (forall c : value, In c (map ct_category out) <-> In c (map category l))
      /\ (Forall (fun ct => number (total ct)) out ->
          StronglySorted descending out
          /\ forall a b : CategoryTotal,
              before a b out ->
              PrimFloat.eqb (total a) (total b) = true ->
              exists p e q,
                l = p ++ e :: q
                /\ category e = ct_category a
                /\ ~ In (ct_category b) (map category p)))
  /\ calculate_category_totals merge sample_expenses
     = [ mkCategoryTotal (VStr "Entertainment") 50.00%float 1;
         mkCategoryTotal (VStr "Gas") 45.00%float 1;
         mkCategoryTotal (VStr "Food") 41.25%float 2 ].
Proof.
  split; [ | reflexivity ].
  intros l out. subst out. split; [ | split ].
  - apply totals_NoDup.
  - apply totals_categories.
  - intros Hn. split.
    + now apply totals_sorted.
    + intros a b. now apply totals_ties.
Qed.

Lemma calculate_category_totals_ordered_witness :
  StronglySorted descending (calculate_category_totals stable_merge sample_expenses).
Proof.
  refine (proj1 (proj2 (proj2 (proj1 (calculate_category_totals_ordered stable_merge)
                                 sample_expenses)) _)).
  vm_compute. repeat constructor.
Defined.

(** C6 as stated fails when a total is NaN, which [<] does not order.  Over
    [nan_among_amounts] the entries are A 5, B 5, C 5, D 5, E NaN, F 5, G 9.
    [list.sort] reverses them, takes G, F as a descending run and turns it
    into F, G, then inserts E after G (NaN is not less than 9), D and C
    before G, B at the end (5 is neither less than 5 nor less than NaN) and
    A before G; reversed again the result is B, E, G, A, C, D, F.  So B 5
    stands before G 9, and B stands before A although their totals are equal
    and A occurs first in the input. *)
Lemma calculate_category_totals_nan_disorder :
  calculate_category_totals stable_merge nan_among_amounts
  = [ mkCategoryTotal (VStr "B") 5%float 1;
      mkCategoryTotal (VStr "E") PrimFloat.nan 1;
      mkCategoryTotal (VStr "G") 9%float 1;
      mkCategoryTotal (VStr "A") 5%float 1;
      mkCategoryTotal (VStr "C") 5%float 1;
      mkCategoryTotal (VStr "D") 5%float 1;
      mkCategoryTotal (VStr "F") 5%float 1 ]
  /\ ~ StronglySorted descending (calculate_category_totals stable_merge nan_among_amounts)
  /\ ~ (forall a b : CategoryTotal,
          before a b (calculate_category_totals stable_merge nan_among_amounts) ->
          PrimFloat.eqb (total a) (total b) = true ->
          exists p e q,
            nan_among_amounts = p ++ e :: q
            /\ category e = ct_category a
            /\ ~ In (ct_category b) (map category p)).
Proof.
  assert (Hout : calculate_category_totals stable_merge nan_among_amounts
                 = [ mkCategoryTotal (VStr "B") 5%float 1;
                     mkCategoryTotal (VStr "E") PrimFloat.nan 1;
                     mkCategoryTotal (VStr "G") 9%float 1;
                     mkCategoryTotal (VStr "A") 5%float 1;
                     mkCategoryTotal (VStr "C") 5%float 1;
                     mkCategoryTotal (VStr "D") 5%float 1;
                     mkCategoryTotal (VStr "F") 5%float 1 ]) by reflexivity.
  rewrite Hout. split; [ reflexivity | split ].
  - intros H. inversion H as [ | ? ? _ Hall ]; subst.
    inversion Hall as [ | ? ? _ Hall' ]; subst.
    inversion Hall' as [ | ? ? HG _ ]; subst.
    unfold descending in HG. simpl in HG. discriminate.
  - intros H.
    destruct (H (mkCategoryTotal (VStr "B") 5%float 1) (mkCategoryTotal (VStr "A") 5%float 1))
      as (p & e & q & Hl & He & Hnot).
    + exists [],
        [ mkCategoryTotal (VStr "E") PrimFloat.nan 1; mkCategoryTotal (VStr "G") 9%float 1 ],
        [ mkCategoryTotal (VStr "C") 5%float 1; mkCategoryTotal (VStr "D") 5%float 1;
          mkCategoryTotal (VStr "F") 5%float 1 ].
      reflexivity.
    + reflexivity.
    + unfold nan_among_amounts in Hl. destruct p as [ | r p ]; simpl in Hl.
      * injection Hl as <- _. discriminate He.
      * injection Hl as <- _. apply Hnot. left. reflexivity.
Qed.

(** C10, as the code has it.  The counts add up to the number of records, no
    category appears twice, and every entry holds the count of the records
    of its category and the float sum of their amounts, added to [0.0] in
    input order. *)
Theorem category_totals_conservation (merge : merge_sort) (l : list Expense) :
  let out := calculate_category_totals merge l in
  list_sum (map count out) = List.length l
  /\ NoDup (map ct_category out)
  /\ (forall ct : CategoryTotal,
        In ct out ->
        total ct = sum (map amount (records_of (ct_category ct) l))
        /\ count ct = List.length (records_of (ct_category ct) l)).
Proof.
  intros out. subst out. repeat apply conj.
  - apply totals_counts.
  - apply totals_NoDup.
  - apply totals_entry.
Qed.

(** C10 as stated fails: float addition rounds, so the order of the additions
    matters.  Over [large_and_small] the total spending is 1e16 (each 1.0 is
    lost when added to 1e16), while the category totals are 1e16 and 2.0 and
    add up to 1e16 + 2. *)
Lemma category_totals_sum_differs :
  get_total_spending large_and_small = 1e16%float
  /\ sum (map total (calculate_category_totals stable_merge large_and_small))
     = 10000000000000002%float
  /\ sum (map total (calculate_category_totals stable_merge large_and_small))
     <> get_total_spending large_and_small.
Proof.
  split; [ reflexivity | split; [ reflexivity | ] ].
  apply AmountSpec.float_neq. reflexivity.
Qed.

End AnalyzerSpec.

(* ================================================================== *)
(** * Facts about dates and the storage *)

Module DatetimeFacts.

Import Text Datetime.
Local Open Scope string_scope.

Lemma max_year : 9999 = 9 * 1000 + 999.
Proof. reflexivity. Qed.

Lemma four_digits (y : nat) :
  y <= 9999 ->
  1000 * (y / 10 / 10 / 10 mod 10) + 100 * (y / 10 / 10 mod 10)
  + 10 * (y / 10 mod 10) + y mod 10 = y.
Proof.
  rewrite max_year. intros H.
  pose proof (Nat.div_mod_eq y 10).
  pose proof (Nat.div_mod_eq (y / 10) 10).
  pose proof (Nat.div_mod_eq (y / 10 / 10) 10).
  pose proof (Nat.div_mod_eq (y / 10 / 10 / 10) 10).
  pose proof (Nat.mod_upper_bound y 10).
  pose proof (Nat.mod_upper_bound (y / 10) 10).
  pose proof (Nat.mod_upper_bound (y / 10 / 10) 10).
  pose proof (Nat.mod_upper_bound (y / 10 / 10 / 10) 10).
  lia.
Qed.

Lemma digit_char_is_digit (k : nat) : k < 10 -> is_digit (digit_char k) = true.
Proof.
  intros H. do 10 (destruct k as [ | k ]; [ reflexivity | ]). lia.
Qed.

Lemma digit_nat_char (k : nat) : k < 10 -> digit_nat (digit_char k) = k.
Proof.
  intros H. do 10 (destruct k as [ | k ]; [ reflexivity | ]). lia.
Qed.

Lemma mod10_lt (n : nat) : n mod 10 < 10.
Proof. apply Nat.mod_upper_bound. discriminate. Qed.

Lemma parse_month_pad2 (m : nat) (rest : string) :
  1 <= m <= 12 ->
  parse_month (pad2 m ++ String "-" rest) = Some (m, String "-" rest).
Proof.
  intros H. do 13 (destruct m as [ | m ]; [ try lia; reflexivity | ]). lia.
Qed.

Lemma parse_day_pad2 (d : nat) :
  1 <= d <= 31 -> parse_day (pad2 d) = Some (d, EmptyString).
Proof.
  intros H. do 32 (destruct d as [ | d ]; [ try lia; reflexivity | ]). lia.
Qed.

Lemma days_in_month_le (y m : nat) : days_in_month y m <= 31.
Proof.
  unfold days_in_month.
  do 12 (destruct m as [ | m ]; [ try destruct (is_leap y); lia | ]). lia.
Qed.

Lemma year_text_four_digits (y : nat) : 1000 <= y -> year_text y = pad4 y.
Proof.
  intros H. unfold year_text.
  assert (E1 : (y <? 10)%nat = false) by (apply Nat.ltb_ge; lia).
  assert (E2 : (y <? 100)%nat = false) by (apply Nat.ltb_ge; lia).
  assert (E3 : (y <? 1000)%nat = false) by (apply Nat.ltb_ge; lia).
  now rewrite E1, E2, E3.
Qed.

Lemma strftime_shape (t : datetime) :
  1000 <= year t ->
  strftime t =
  String (digit_char (year t / 10 / 10 / 10 mod 10))
    (String (digit_char (year t / 10 / 10 mod 10))
       (String (digit_char (year t / 10 mod 10))
          (String (digit_char (year t mod 10))
             (String "-" (pad2 (month t) ++ String "-" (pad2 (day t))))))).
Proof.
  intros H. unfold strftime. now rewrite year_text_four_digits.
Qed.

(** Reading back the text of a date whose year has four digits gives the
    same day, at midnight. *)
Lemma strptime_strftime (t : datetime) :
  valid t = true -> 1000 <= year t -> strptime (strftime t) = Ok (midnight t).
Proof.
  unfold valid, valid_date. intros H Hy.
  repeat (apply andb_true_iff in H; destruct H as [ H ? ]).
  repeat match goal with
         | E : (_ <=? _)%nat = true |- _ => apply Nat.leb_le in E
         end.
  pose proof (days_in_month_le (year t) (month t)).
  rewrite strftime_shape by exact Hy. unfold strptime, midnight.
  rewrite !digit_char_is_digit by apply mod10_lt.
  cbn [andb Ascii.eqb Bool.eqb].
  rewrite parse_month_pad2 by lia.
  cbn [Ascii.eqb Bool.eqb].
  rewrite parse_day_pad2 by lia.
  rewrite !digit_nat_char by apply mod10_lt.
  rewrite four_digits by assumption.
  unfold valid_date.
  repeat match goal with
         | E : _ <= _ |- _ => apply Nat.leb_le in E; rewrite E
         end.
  reflexivity.
Qed.

Lemma strftime_midnight (t : datetime) : strftime (midnight t) = strftime t.
Proof. reflexivity. Qed.

(** The dates of a list of given records are storable, by computation. *)
Ltac storable_dates :=
  vm_compute;
  repeat (apply Forall_cons;
          [ split; [ reflexivity | apply Nat.leb_le; reflexivity ] | ]);
  try apply Forall_nil.

End DatetimeFacts.

Module StorageFacts.

Import Datetime Models ExcelStorage Statements DatetimeFacts.

Lemma traverse_Forall {A B : Type} (f : A -> result B) (P : A -> Prop) (Q : B -> Prop) :
  (forall x y, P x -> f x = Ok y -> Q y) ->
  forall xs ys, Forall P xs -> traverse f xs = Ok ys -> Forall Q ys.
Proof.
  intros Hf xs. induction xs as [ | x xs IH ]; intros ys HP E; simpl in E.
  - injection E as <-. constructor.
  - inversion HP; subst.
    destruct (f x) as [ y | ] eqn:Ey; simpl in E; [ | discriminate ].
    destruct (traverse f xs) as [ ys' | ] eqn:Eys; simpl in E; [ | discriminate ].
    injection E as <-. constructor; eauto.
Qed.

Lemma traverse_map {A B C : Type} (f : B -> result C) (h : A -> B) (g : A -> C)
  (xs : list A) :
  (forall x, In x xs -> f (h x) = Ok (g x)) -> traverse f (map h xs) = Ok (map g xs).
Proof.
  induction xs as [ | x xs IH ]; intros H; simpl.
  - reflexivity.
  - rewrite (H x (or_introl eq_refl)). simpl.
    rewrite IH by (intros y Hy; apply H; now right). reflexivity.
Qed.

Lemma dict_get_row_dict (key : string) (dflt : value) (cols : list string) :
  forall (r : list value) (i : nat),
    index_of key cols = Some i ->
    dict_get key dflt (row_dict cols r) = nth i r NaN.
Proof.
  induction cols as [ | c cols IH ]; intros r i H; simpl in *.
  - discriminate.
  - destruct (String.eqb c key).
    + injection H as <-. destruct r; reflexivity.
    + destruct (index_of key cols) as [ j | ]; simpl in H; [ | discriminate ].
      injection H as <-. rewrite (IH (tl r) j eq_refl).
      destruct r; [ destruct j | ]; reflexivity.
Qed.

Lemma select_mask {A : Type} (f : A -> bool) (g : A -> bool) (xs : list A) (x : A) :
  In x (select (zip_with andb (map f xs) (map g xs)) xs) -> f x && g x = true.
Proof.
  induction xs as [ | y xs IH ]; simpl.
  - intros [].
  - destruct (f y && g y) eqn:E; simpl.
    + intros [ <- | H ]; auto.
    + auto.
Qed.

Lemma select_all {A : Type} (f : A -> bool) (g : A -> bool) (xs : list A) :
  Forall (fun x => f x && g x = true) xs ->
  select (zip_with andb (map f xs) (map g xs)) xs = xs.
Proof.
  induction 1 as [ | y xs Hy Hxs IH ]; simpl.
  - reflexivity.
  - now rewrite Hy, IH.
Qed.

Lemma str_upper_ok (col up : list value) :
  str_upper col = Ok up -> up = map upper_cell col.
Proof.
  unfold str_upper. destruct col as [ | v col ].
  - now intros [= <-].
  - destruct (existsb is_str (v :: col)); [ now intros [= <-] | discriminate ].
Qed.

Lemma kept_cell (v : value) : notna v && ne_TOTAL (upper_cell v) = true -> kept v.
Proof.
  intros H. apply andb_true_iff in H as [ Hn Ht ]. split; [ exact Hn | ].
  intros s ->. simpl in Ht. apply negb_true_iff in Ht.
  now apply String.eqb_neq.
Qed.

Lemma cell_kept (s : string) :
  Text.upper s <> "TOTAL"%string -> notna (VStr s) && ne_TOTAL (upper_cell (VStr s)) = true.
Proof.
  intros H. simpl. apply negb_true_iff. now apply String.eqb_neq.
Qed.

(** The frame after the filter: same header, and a Category column whose
    cells all pass. *)
Lemma drop_total_rows_kept (df df' : DataFrame) :
  drop_total_rows df = Ok df' ->
  columns df' = columns df
  /\ exists i : nat,
      index_of "Category" (columns df) = Some i
      /\ Forall (fun r => kept (nth i r NaN)) (rows df').
Proof.
  unfold drop_total_rows, column.
  destruct (index_of "Category" (columns df)) as [ i | ]; simpl; [ | discriminate ].
  destruct (str_upper _) as [ up | ] eqn:Eup; simpl; [ | discriminate ].
  intros [= <-]. simpl. split; [ reflexivity | ].
  exists i. split; [ reflexivity | ].
  apply str_upper_ok in Eup. subst up.
  rewrite !map_map. apply Forall_forall. intros r Hr.
  apply kept_cell.
  exact (select_mask (fun r => notna (nth i r NaN))
           (fun r => ne_TOTAL (upper_cell (nth i r NaN))) _ r Hr).
Qed.

Section Storage.

Variable File : Type.
Variable read_excel : File -> result DataFrame.
Variable to_excel : DataFrame -> result File.
Variable float_of_str : string -> result float.

Lemma from_dict_category (now : datetime) (d : pydict) (e : Expense) :
  from_dict float_of_str now d = Ok e ->
  category e = dict_get "Category" (VStr "Uncategorized") d.
Proof.
  unfold from_dict.
  destruct (match dict_get "Date/Time" _ d with
            | VStr date_str => strptime date_str
            | VFloat _ => Ok now
            end) as [ t | ]; simpl; [ | discriminate ].
  destruct (to_float float_of_str _) as [ a | ]; simpl; [ | discriminate ].
  now intros [= <-].
Qed.

Lemma from_dict_to_dict (now : datetime) (e : Expense) :
  storable (date e) ->
  from_dict float_of_str now (to_dict e) = Ok (at_midnight e).
Proof.
  intros [ H Hy ]. unfold from_dict, to_dict. cbn [dict_get String.eqb Ascii.eqb Bool.eqb].
  rewrite (strptime_strftime _ H Hy). reflexivity.
Qed.

Lemma to_dict_at_midnight (e : Expense) : to_dict (at_midnight e) = to_dict e.
Proof. reflexivity. Qed.

(** Every record [load_expenses] returns passed the filter. *)
Lemma load_expenses_kept (now : datetime) (path : string) (fs : filesystem File) :
  Forall (fun e => kept (category e))
    (load_expenses File read_excel float_of_str now path fs).
Proof.
  unfold load_expenses.
  destruct (fs path) as [ f | ]; [ | constructor ].
  destruct (read_excel f) as [ df | ]; simpl; [ | constructor ].
  destruct (drop_total_rows df) as [ df' | ] eqn:Edrop; simpl; [ | constructor ].
  destruct (traverse _ _) as [ es | ] eqn:Etr; [ | constructor ].
  destruct (drop_total_rows_kept df df' Edrop) as (Hcols & i & Hi & Hrows).
  rewrite <- Hcols in Hi.
  refine (traverse_Forall _
            (fun d => kept (dict_get "Category" (VStr "Uncategorized") d)) _ _
            (iterrows df') es _ Etr).
  - intros d e Hd He. now rewrite (from_dict_category now d e He).
  - unfold iterrows. apply Forall_map.
    revert Hrows. apply Forall_impl. intros r Hr.
    now rewrite (dict_get_row_dict _ _ _ r i Hi).
Qed.

Lemma kept_not_TOTAL (v : value) : kept v -> v <> VStr "TOTAL".
Proof.
  intros [ _ H ] ->. now apply (H "TOTAL"%string).
Qed.

(** The frame of a non-empty list of records. *)
Lemma frame_of_records (e : Expense) (rs : list Expense) :
  DataFrame_of_dicts (map to_dict (e :: rs))
  = mkDataFrame [ "Date/Time"; "Category"; "Amount ($)"; "Notes" ]%string
      (map cells (e :: rs)).
Proof.
  unfold DataFrame_of_dicts. f_equal. now rewrite map_map.
Qed.

(** Loading a file whose frame is the one [save_expenses] builds. *)
Lemma load_saved_frame (now : datetime) (path : string) (fs : filesystem File)
  (f : File) (rs : list Expense) :
  Forall (fun e => storable (date e)) rs ->
  Forall (fun e => exists c, category e = VStr c /\ Text.upper c <> "TOTAL"%string) rs ->
  fs path = Some f ->
  read_excel f = Ok (DataFrame_of_dicts (map to_dict rs)) ->
  load_expenses File read_excel float_of_str now path fs = map at_midnight rs.
Proof.
  intros Hvalid Hcat Hfs Hread. unfold load_expenses. rewrite Hfs, Hread. simpl.
  destruct rs as [ | e rs ]; [ reflexivity | ].
  rewrite frame_of_records. unfold cells.
  set (row := fun e : Expense =>
                [ VStr (strftime (date e)); category e; VFloat (amount e); notes e ]).
  set (rs' := e :: rs) in *.
  unfold drop_total_rows, column. cbn [columns rows index_of String.eqb Ascii.eqb
                                        Bool.eqb option_map bind].
  set (xs := map row rs').
  assert (Hstr : str_upper (map (fun r => nth 1 r NaN) xs)
                 = Ok (map upper_cell (map (fun r => nth 1 r NaN) xs))).
  { unfold str_upper, xs, rs'. cbn [map nth row].
    inversion Hcat as [ | ? ? (c & Hc & _) _ ]; subst.
    cbn [existsb]. rewrite Hc. reflexivity. }
  rewrite Hstr. cbn [bind]. rewrite !map_map.
  rewrite (select_all (fun r => notna (nth 1 r NaN))
             (fun r => ne_TOTAL (upper_cell (nth 1 r NaN)))).
  - unfold iterrows, xs. cbn [columns rows]. rewrite map_map.
    rewrite (traverse_map _ _ at_midnight).
    + reflexivity.
    + intros e0 He0.
      change (row_dict _ (row e0)) with (to_dict e0).
      apply from_dict_to_dict.
      revert e0 He0. now apply Forall_forall.
  - unfold xs. apply Forall_map. revert Hcat. apply Forall_impl.
    intros e0 (c & Hc & Hne). cbn [row nth]. rewrite Hc. now apply cell_kept.
Qed.

End Storage.

End StorageFacts.

(* ================================================================== *)
(** * The storage and the controller *)

Module StorageSpec.

Import Datetime Models ExcelStorage ExpenseAnalyzer ExpenseController.
Import Statements Examples AnalyzerFacts DatetimeFacts StorageFacts.

Section Storage.

Variable File : Type.
Variable read_excel : File -> result DataFrame.
Variable to_excel : DataFrame -> result File.
Variable float_of_str : string -> result float.

Notation load := (load_expenses File read_excel float_of_str).
Notation save := (save_expenses File to_excel).

(** C5.  [load_expenses] returns the empty list when there is no file at the
    path and when the file cannot be read; whatever the file holds, no record
    it returns has a missing category (NaN, which is how an empty cell is
    read) or a category that is TOTAL in upper, lower or mixed case. *)
Theorem load_expenses_filters (now : datetime) (path : string) (fs : filesystem File) :
  (fs path = None -> load now path fs = [])
  /\ (forall f : File, fs path = Some f -> read_excel f = Raise -> load now path fs = [])
  /\ Forall (fun e => notna (category e) = true
                      /\ forall s : string,
                          category e = VStr s -> Text.upper s <> "TOTAL"%string)
       (load now path fs).
Proof.
  split; [ | split ].
  - intros H. unfold load_expenses. now rewrite H.
  - intros f H Hr. unfold load_expenses. now rewrite H, Hr.
  - apply load_expenses_kept.
Qed.

(** C8, as the code has it.  Take records whose dates are dates of the
    calendar with a four-digit year and whose categories are texts other
    than TOTAL, and a spreadsheet layer that returns the frame it was given.
    Then loading right after [save_expenses] returns the same records in the
    same order, with equal category, amount and notes and the same calendar
    day; the time of day is not stored and comes back as 00:00.  Saving what
    was loaded and loading again returns the same list. *)
Theorem save_then_load_expenses (now now' : datetime) (path : string)
  (fs : filesystem File) (rs : list Expense) (f : File) :
  Forall (fun e => storable (date e)) rs ->
  Forall (fun e => exists c, category e = VStr c /\ Text.upper c <> "TOTAL"%string) rs ->
  to_excel (DataFrame_of_dicts (map to_dict rs)) = Ok f ->
  read_excel f = Ok (DataFrame_of_dicts (map to_dict rs)) ->
  exists fs' : filesystem File,
    save path rs fs = Ok fs'
    /\ load now path fs' = map at_midnight rs
    /\ exists fs'' : filesystem File,
        save path (load now path fs') fs' = Ok fs''
        /\ load now' path fs'' = load now path fs'.
Proof.
  intros Hvalid Hcat Hwrite Hread.
  assert (Hpath : forall g : filesystem File, write_file File path f g path = Some f).
  { intros g. unfold write_file. now rewrite String.eqb_refl. }
  exists (write_file File path f fs).
  assert (Hload : forall t, load t path (write_file File path f fs) = map at_midnight rs).
  { intros t. now apply (load_saved_frame File read_excel float_of_str t path _ f rs). }
  split; [ | split ].
  - unfold save_expenses. now rewrite Hwrite.
  - apply Hload.
  - exists (write_file File path f (write_file File path f fs)).
    assert (Hsame : map to_dict (map at_midnight rs) = map to_dict rs).
    { rewrite map_map. apply map_ext. intros e. apply to_dict_at_midnight. }
    split.
    + unfold save_expenses. now rewrite Hload, Hsame, Hwrite.
    + rewrite Hload.
      now apply (load_saved_frame File read_excel float_of_str now' path _ f rs).
Qed.

End Storage.

Lemma load_expenses_filters_witness :
  load_expenses DataFrame plain_read no_text_amount afternoon "expenses.xlsx" no_files = [].
Proof.
  apply (proj1 (load_expenses_filters DataFrame plain_read no_text_amount afternoon
                  "expenses.xlsx" no_files)).
  reflexivity.
Defined.

Lemma save_then_load_expenses_witness :
  exists fs' : filesystem DataFrame,
    save_expenses DataFrame plain_write "expenses.xlsx" sample_expenses no_files
    = Ok fs'
    /\ load_expenses DataFrame plain_read no_text_amount afternoon "expenses.xlsx" fs'
       = map at_midnight sample_expenses
    /\ exists fs'' : filesystem DataFrame,
        save_expenses DataFrame plain_write "expenses.xlsx"
          (load_expenses DataFrame plain_read no_text_amount afternoon "expenses.xlsx" fs') fs'
        = Ok fs''
        /\ load_expenses DataFrame plain_read no_text_amount evening "expenses.xlsx" fs''
           = load_expenses DataFrame plain_read no_text_amount afternoon "expenses.xlsx" fs'.
Proof.
  apply (save_then_load_expenses DataFrame plain_read plain_write no_text_amount
           afternoon evening "expenses.xlsx" no_files sample_expenses
           (DataFrame_of_dicts (map to_dict sample_expenses))).
  - storable_dates.
  - repeat constructor; eexists; (split; [ reflexivity | discriminate ]).
  - reflexivity.
  - reflexivity.
Defined.

(** C8 as stated fails, in three ways.
    - A record dated 2025-10-14 15:30 is saved as [2025-10-14], so even a
      spreadsheet layer that returns every cell as written gives back a
      record dated 2025-10-14 00:00, not the one saved.
    - A record dated 0999-12-31 is saved as [999-12-31]: [strftime] does not
      pad the year, [strptime] asks for four digits, [from_dict] raises and
      [load_expenses] returns the empty list.
    - A record with the default notes, the empty text, comes back with
      missing notes (NaN) from a layer that reads an empty cell as missing,
      as pandas does. *)
Lemma save_then_load_differs :
  (exists fs' : filesystem DataFrame,
      save_expenses DataFrame plain_write "expenses.xlsx" [lunch] no_files = Ok fs'
      /\ load_expenses DataFrame plain_read no_text_amount afternoon "expenses.xlsx" fs'
         = [ mkExpense (mkDatetime 2025 10 14 0 0 0 0) (VStr "Food") 12.99%float
               (VStr "Test expense") ]
      /\ load_expenses DataFrame plain_read no_text_amount afternoon "expenses.xlsx" fs'
         <> [lunch])
  /\ (exists fs' : filesystem DataFrame,
        save_expenses DataFrame plain_write "expenses.xlsx" [year_999] no_files = Ok fs'
        /\ fs' "expenses.xlsx"%string
           = Some (mkDataFrame [ "Date/Time"; "Category"; "Amount ($)"; "Notes" ]%string
                     [ [ VStr "999-12-31"; VStr "Food"; VFloat 10; VStr "Feast" ] ])
        /\ load_expenses DataFrame plain_read no_text_amount afternoon "expenses.xlsx" fs'
           = [])
  /\ (exists fs' : filesystem DataFrame,
        save_expenses DataFrame plain_write "expenses.xlsx" [no_notes] no_files = Ok fs'
        /\ load_expenses DataFrame read_blank_as_missing no_text_amount afternoon
             "expenses.xlsx" fs'
           = [ mkExpense (on_day 14) (VStr "Food") 10%float NaN ]
        /\ load_expenses DataFrame read_blank_as_missing no_text_amount afternoon
             "expenses.xlsx" fs'
           <> [no_notes]).
Proof.
  split; [ | split ].
  - eexists. split; [ reflexivity | ]. split; [ reflexivity | ].
    intros H. apply (f_equal (map (fun e => hour (date e)))) in H.
    vm_compute in H. discriminate.
  - eexists. split; [ reflexivity | ]. split; reflexivity.
  - eexists. split; [ reflexivity | ]. split; [ reflexivity | ].
    intros H. apply (f_equal (map notes)) in H. vm_compute in H. discriminate.
Qed.

Section Controller.

Variable File : Type.
Variable read_excel : File -> result DataFrame.
Variable to_excel : DataFrame -> result File.
Variable float_of_str : string -> result float.
Variable format_workbook : File -> result File.
Variable storage_path : string.
Variable merge : merge_sort.

Notation load := (load_expenses File read_excel float_of_str).
Notation export :=
  (export_to_excel File read_excel to_excel float_of_str format_workbook storage_path).

(** C9.  [export_to_excel] writes one sheet: under the four column names, a
    row for each loaded record, in order, then one row labelled TOTAL, dated
    now, with empty notes, whose amount is the amounts of the rows before it
    added to [0.0] from first to last.  The export succeeds exactly when this
    sheet is written and formatted, and then the file at [file_path] is the
    formatted workbook.  No loaded record is labelled TOTAL, so the sheet
    has exactly one TOTAL row.  The TOTAL row does not enter the live record
    set: after an export no other path has changed, [load_expenses] on the
    storage path returns no record labelled TOTAL, and it returns what it
    returned before when the export went to another path. *)
Theorem export_to_excel_appends_total (now now' : datetime) (file_path : string)
  (fs : filesystem File) :
  let loaded := load now storage_path fs in
  let sheet :=
    mkDataFrame [ "Date/Time"; "Category"; "Amount ($)"; "Notes" ]%string
      (map (fun e => [ VStr (strftime (date e)); category e; VFloat (amount e); notes e ])
         loaded
       ++ [ [ VStr (strftime now); VStr "TOTAL";
              VFloat (fold_left PrimFloat.add (map amount loaded) 0%float);
              VStr EmptyString ] ]) in
  export now file_path fs
  = (f <- to_excel sheet ;;
     f' <- format_workbook f ;;
     Ok (write_file File file_path f' (write_file File file_path f fs)))
  /\ Forall (fun e => category e <> VStr "TOTAL") loaded
  /\ forall fs' : filesystem File,
      export now file_path fs = Ok fs' ->
      (forall p : string, p <> file_path -> fs' p = fs p)
      /\ Forall (fun e => category e <> VStr "TOTAL") (load now' storage_path fs')
      /\ (file_path <> storage_path -> load now storage_path fs' = loaded).
Proof.
  intros loaded sheet.
  assert (Hsheet : DataFrame_of_dicts
                     (map to_dict (export_rows File read_excel float_of_str storage_path
                                     now fs)) = sheet).
  { unfold export_rows, DataFrame_of_dicts. fold loaded. subst sheet. f_equal.
    - destruct loaded; reflexivity.
    - rewrite !map_map, map_app. reflexivity. }
  assert (Hexport : export now file_path fs
                    = (f <- to_excel sheet ;;
                       f' <- format_workbook f ;;
                       Ok (write_file File file_path f' (write_file File file_path f fs)))).
  { unfold export_to_excel, save_expenses. rewrite Hsheet.
    destruct (to_excel sheet) as [ f | ]; simpl; [ | reflexivity ].
    unfold write_file at 1. now rewrite String.eqb_refl. }
  assert (Hkept : forall t g, Forall (fun e => category e <> VStr "TOTAL") (load t storage_path g)).
  { intros t g. generalize (load_expenses_kept File read_excel float_of_str t storage_path g).
    apply Forall_impl. intros e. apply kept_not_TOTAL. }
  split; [ exact Hexport | ]. split; [ apply Hkept | ].
  intros fs'. rewrite Hexport.
  destruct (to_excel sheet) as [ f | ]; simpl; [ | discriminate ].
  destruct (format_workbook f) as [ f' | ]; simpl; [ | discriminate ].
  intros [= <-].
  assert (Hother : forall p, p <> file_path ->
            write_file File file_path f' (write_file File file_path f fs) p = fs p).
  { intros p Hp. unfold write_file. apply String.eqb_neq in Hp. now rewrite Hp. }
  split; [ exact Hother | split ].
  - apply Hkept.
  - intros Hp. unfold loaded, load_expenses. rewrite Hother; [ reflexivity | ].
    intros E. now apply Hp.
Qed.

(** C7, as the code has it.  The aggregate operations have no filter of
    their own: the categories of [calculate_category_totals] are exactly the
    categories of the records it is given, and [get_total_spending] adds the
    amount of every record it is given.  TOTAL stays out of the dashboard's
    category totals because [load_expenses] drops such rows before the
    aggregator sees them. *)
Theorem aggregates_keep_what_they_are_given (now : datetime) (fs : filesystem File) :
  (forall (l : list Expense) (c : value),
      In c (map ct_category (calculate_category_totals merge l)) <-> In c (map category l))
  /\ (forall (l : list Expense) (e : Expense),
      get_total_spending (l ++ [e]) = (get_total_spending l + amount e)%float)
  /\ Forall (fun ct => ct_category ct <> VStr "TOTAL")
       (snd (fst (fst (get_dashboard_data File read_excel float_of_str storage_path merge
                         now fs)))).
Proof.
  split; [ | split ].
  - apply totals_categories.
  - intros l e. unfold get_total_spending. rewrite map_app. apply sum_snoc.
  - unfold get_dashboard_data. cbn [fst snd].
    apply Forall_forall. intros ct Hct E.
    assert (Hin : In (VStr "TOTAL") (map category (load now storage_path fs))).
    { apply (totals_categories merge). rewrite <- E. now apply in_map. }
    apply in_map_iff in Hin as (e & He & Hin).
    pose proof (load_expenses_kept File read_excel float_of_str now storage_path fs) as H.
    rewrite Forall_forall in H. apply (kept_not_TOTAL _ (H e Hin)). exact He.
Qed.

End Controller.

(** The export of the fixture, on 2025-10-14: the four records, then the
    TOTAL row with 136.25; the storage file is not touched. *)
Lemma export_to_excel_appends_total_witness :
  export_to_excel DataFrame plain_read plain_write no_text_amount plain_format
    "expenses.xlsx" afternoon "export.xlsx" stored_sample
  = Ok (write_file DataFrame "export.xlsx" exported_sheet
          (write_file DataFrame "export.xlsx" exported_sheet stored_sample))
  /\ load_expenses DataFrame plain_read no_text_amount afternoon "expenses.xlsx"
       exported_sample
     = load_expenses DataFrame plain_read no_text_amount afternoon "expenses.xlsx"
         stored_sample.
Proof.
  split.
  - rewrite (proj1 (export_to_excel_appends_total DataFrame plain_read plain_write
                      no_text_amount plain_format "expenses.xlsx" afternoon evening
                      "export.xlsx" stored_sample)).
    reflexivity.
  - apply (proj2 (proj2 (export_to_excel_appends_total DataFrame plain_read plain_write
                           no_text_amount plain_format "expenses.xlsx" afternoon evening
                           "export.xlsx" stored_sample))
             exported_sample eq_refl).
    discriminate.
Defined.

(** C7 as stated fails: given a record labelled TOTAL, the aggregator returns
    a TOTAL entry, and the total spending counts the record. *)
Lemma aggregates_count_total_records :
  calculate_category_totals stable_merge
    [ mkExpense afternoon (VStr "TOTAL") 10%float (VStr EmptyString) ]
  = [ mkCategoryTotal (VStr "TOTAL") 10%float 1 ]
  /\ get_total_spending
       [ mkExpense afternoon (VStr "Food") 5%float (VStr EmptyString);
         mkExpense afternoon (VStr "TOTAL") 5%float (VStr EmptyString) ]
     = 10%float
  /\ get_total_spending
       [ mkExpense afternoon (VStr "Food") 5%float (VStr EmptyString);
         mkExpense afternoon (VStr "TOTAL") 5%float (VStr EmptyString) ]
     <> get_total_spending [ mkExpense afternoon (VStr "Food") 5%float (VStr EmptyString) ].
Proof.
  split; [ reflexivity | split; [ reflexivity | ] ].
  apply AmountSpec.float_neq. reflexivity.
Qed.

End StorageSpec.

(* ================================================================== *)
(** * More about the parser *)

Module ParserExtra.

Import Text TextFacts PyFloat Datetime Models ExpenseParser Statements Examples.
Local Open Scope string_scope.

(** ** What a match of the amount pattern looks like *)

#[local] Arguments is_dot : simpl never.
#[local] Arguments is_digit : simpl never.
#[local] Arguments is_word : simpl never.

Lemma plus_more_inv (p : ascii -> bool) (s : string) :
  forall (prev : ascii) (k : cont) (r : string),
    plus_more p prev s k = Some r ->
    exists ds rest,
      s = ds ++ rest /\ all_chars p ds = true /\ k (last_char (Some prev) ds) rest = Some r.
Proof.
  induction s as [ | c s IH ]; intros prev k r H; simpl in H.
  - exists EmptyString, EmptyString. auto.
  - destruct (p c) eqn:Ec.
    + destruct (plus_more p c s k) as [ r0 | ] eqn:E.
      * injection H as ->. destruct (IH c k r E) as (ds & rest & -> & Hds & Hk).
        exists (String c ds), rest. simpl. rewrite Ec. auto.
      * exists EmptyString, (String c s). auto.
    + exists EmptyString, (String c s). auto.
Qed.

Lemma boundary_after_word (prev : option ascii) (s r : string) :
  word_before prev = true ->
  (if at_boundary prev s then Some s else None) = Some r ->
  r = s /\ word_after s = false.
Proof.
  unfold at_boundary. intros ->. destruct (word_after s); simpl; [ discriminate | ].
  intros [= <-]. auto.
Qed.

Lemma match_numeral_inv (prev : option ascii) (s rest : string) :
  rmatch amount_pattern prev s (fun _ rest => Some rest) = Some rest ->
  exists ip frac,
    s = ip ++ frac ++ rest
    /\ all_chars is_digit ip = true /\ ip <> EmptyString
    /\ is_fraction frac = true
    /\ word_before prev = false /\ word_after rest = false.
Proof.
  unfold amount_pattern. cbn [rmatch]. intros H.
  destruct (at_boundary prev s) eqn:Eb; [ | discriminate ].
  destruct s as [ | c s ]; [ discriminate | ].
  destruct (is_digit c) eqn:Ec; [ | discriminate ].
  assert (Hprev : word_before prev = false).
  { unfold at_boundary in Eb. simpl in Eb. rewrite (digit_is_word c Ec) in Eb.
    destruct (word_before prev); [ discriminate | reflexivity ]. }
  apply plus_more_inv in H as (ds & s2 & -> & Hds & H).
  assert (Hip : all_chars is_digit (String c ds) = true) by (simpl; now rewrite Ec).
  assert (Hlast : word_before (last_char (Some c) ds) = true).
  { apply (last_char_digits (String c ds) prev Hip). discriminate. }
  set (pl := last_char (Some c) ds) in *.
  assert (Hend : forall frac r,
             s2 = frac ++ r -> is_fraction frac = true -> word_after r = false -> r = rest ->
             exists ip frac0,
               String c (ds ++ s2) = ip ++ frac0 ++ rest
               /\ all_chars is_digit ip = true /\ ip <> EmptyString
               /\ is_fraction frac0 = true
               /\ word_before prev = false /\ word_after rest = false).
  { intros frac r -> Hf Hr <-. exists (String c ds), frac.
    repeat split; auto. discriminate. }
  destruct s2 as [ | a t ].
  - (* nothing follows the digits *)
    simpl in H. apply (boundary_after_word pl) in H as [ -> Hr ]; [ | exact Hlast ].
    now apply (Hend EmptyString EmptyString).
  - destruct (is_dot a) eqn:Ea.
    + destruct t as [ | b u ].
      * simpl in H. try rewrite Ea in H.
        apply (boundary_after_word pl) in H as [ -> Hr ]; [ | exact Hlast ].
        now apply (Hend EmptyString (String a EmptyString)).
      * destruct (is_digit b) eqn:Eb'.
        -- destruct u as [ | c2 v ].
           ++ simpl in H. try rewrite Ea in H; try rewrite Eb' in H.
              unfold at_boundary in H at 1. simpl in H.
              rewrite (digit_is_word b Eb') in H. simpl in H. injection H as <-.
              apply (Hend (String a (String b EmptyString)) EmptyString); auto.
              simpl. now rewrite Ea, Eb'.
           ++ simpl in H. try rewrite Ea in H; try rewrite Eb' in H.
              destruct (is_digit c2) eqn:Ec2.
              ** destruct (at_boundary (Some c2) v) eqn:Ev.
                 --- injection H as <-.
                     apply (Hend (String a (String b (String c2 EmptyString))) v); auto.
                     +++ simpl. now rewrite Ea, Eb', Ec2.
                     +++ unfold at_boundary in Ev. simpl in Ev.
                         rewrite (digit_is_word c2 Ec2) in Ev.
                         destruct (word_after v); [ discriminate | reflexivity ].
                 --- unfold at_boundary in H at 1. simpl in H.
                     rewrite (digit_is_word b Eb'), (digit_is_word c2 Ec2) in H.
                     simpl in H.
                     apply (boundary_after_word pl) in H as [ -> Hr ]; [ | exact Hlast ].
                     now apply (Hend EmptyString (String a (String b (String c2 v)))).
              ** destruct (at_boundary (Some b) (String c2 v)) eqn:Ev.
                 --- injection H as <-.
                     apply (Hend (String a (String b EmptyString)) (String c2 v)); auto.
                     +++ simpl. now rewrite Ea, Eb'.
                     +++ unfold at_boundary in Ev. simpl in Ev.
                         rewrite (digit_is_word b Eb') in Ev. simpl in *.
                         destruct (is_word c2); [ discriminate | reflexivity ].
                 --- apply (boundary_after_word pl) in H as [ -> Hr ]; [ | exact Hlast ].
                     now apply (Hend EmptyString (String a (String b (String c2 v)))).
        -- simpl in H. try rewrite Ea in H; try rewrite Eb' in H.
           apply (boundary_after_word pl) in H as [ -> Hr ]; [ | exact Hlast ].
           now apply (Hend EmptyString (String a (String b u))).
    + simpl in H. try rewrite Ea in H.
      apply (boundary_after_word pl) in H as [ -> Hr ]; [ | exact Hlast ].
      now apply (Hend EmptyString (String a t)).
Qed.

Lemma search_from_inv (s : string) :
  forall (prev : option ascii) (m : string),
    search_from amount_pattern prev s = Some m ->
    exists pre ip frac post,
      s = pre ++ ip ++ frac ++ post
      /\ m = ip ++ frac
      /\ all_chars is_digit ip = true /\ ip <> EmptyString
      /\ is_fraction frac = true
      /\ word_before (last_char prev pre) = false /\ word_after post = false.
Proof.
  induction s as [ | c s IH ]; intros prev m H.
  - cbn [search_from] in H. rewrite no_match_at_non_digit in H by exact I. discriminate.
  - cbn [search_from] in H.
    destruct (rmatch amount_pattern prev (String c s) (fun _ rest => Some rest))
      as [ rest | ] eqn:E.
    + injection H as <-.
      destruct (match_numeral_inv prev _ rest E) as (ip & frac & Es & Hip & Hne & Hf & Hp & Hr).
      exists EmptyString, ip, frac, rest.
      split; [ exact Es | ]. split; [ | auto ].
      change (take (String.length (String c s) - String.length rest) (String c s)
              = ip ++ frac).
      rewrite Es, <- append_assoc, length_append, Nat.add_sub. apply take_append.
    + destruct (IH (Some c) m H) as (pre & ip & frac & post & -> & Hm & Hip & Hne & Hf & Hp & Hr).
      exists (String c pre), ip, frac, post. repeat split; auto.
Qed.

(** X1.  [parse_amount] returns one of three things: [0.0] for the empty
    text; the float of a numeral (digits, then optionally a dot and one or
    two digits) that stands in the cleaned text between word boundaries; or,
    when the pattern finds nothing, what the written-number library makes of
    the cleaned text, [0.0] if it raises. *)
Theorem parse_amount_cases (word_to_num : string -> result float) (text : string) :
  (text = EmptyString /\ parse_amount word_to_num text = 0%float)
  \/ (exists pre ip frac post,
         clean text = pre ++ ip ++ frac ++ post
         /\ all_chars is_digit ip = true /\ ip <> EmptyString
         /\ is_fraction frac = true
         /\ word_before (last_char None pre) = false /\ word_after post = false
         /\ parse_amount word_to_num text = float_of_decimal (ip ++ frac))
  \/ (search amount_pattern (clean text) = None
      /\ parse_amount word_to_num text
         = match word_to_num (clean text) with
           | Ok amount => amount
           | Raise => 0%float
           end).
Proof.
  destruct text as [ | c text ]; [ left; split; reflexivity | right ].
  unfold parse_amount. cbn [is_empty]. cbv zeta.
  destruct (search amount_pattern (clean (String c text))) as [ m | ] eqn:E.
  - left. unfold search in E.
    destruct (search_from_inv _ None m E)
      as (pre & ip & frac & post & Es & -> & Hip & Hne & Hf & Hp & Hr).
    exists pre, ip, frac, post. repeat split; auto.
  - right. split; reflexivity.
Qed.

(** ** Case *)

Lemma lower_upper_char (c : ascii) : lower_char (upper_char c) = lower_char c.
Proof.
  destruct c as [[] [] [] [] [] [] [] []]; reflexivity.
Qed.

Lemma lower_lower_char (c : ascii) : lower_char (lower_char c) = lower_char c.
Proof.
  destruct c as [[] [] [] [] [] [] [] []]; reflexivity.
Qed.

Lemma comma_upper_char (d : ascii) : Ascii.eqb (upper_char d) "," = Ascii.eqb d ",".
Proof.
  destruct d as [[] [] [] [] [] [] [] []]; reflexivity.
Qed.

Lemma dollar_upper_char (d : ascii) : Ascii.eqb (upper_char d) "$" = Ascii.eqb d "$".
Proof.
  destruct d as [[] [] [] [] [] [] [] []]; reflexivity.
Qed.

Lemma comma_lower_char (d : ascii) : Ascii.eqb (lower_char d) "," = Ascii.eqb d ",".
Proof.
  destruct d as [[] [] [] [] [] [] [] []]; reflexivity.
Qed.

Lemma dollar_lower_char (d : ascii) : Ascii.eqb (lower_char d) "$" = Ascii.eqb d "$".
Proof.
  destruct d as [[] [] [] [] [] [] [] []]; reflexivity.
Qed.

Lemma remove_char_map (f : ascii -> ascii) (c : ascii) (map_f : string -> string) :
  (forall d, Ascii.eqb (f d) c = Ascii.eqb d c) ->
  (forall d s, map_f (String d s) = String (f d) (map_f s)) ->
  map_f EmptyString = EmptyString ->
  forall s, remove_char c (map_f s) = map_f (remove_char c s).
Proof.
  intros Hf Hcons Hnil s. induction s as [ | d s IH ]; simpl.
  - now rewrite Hnil.
  - rewrite Hcons. simpl. rewrite Hf.
    destruct (Ascii.eqb d c); [ exact IH | ]. now rewrite Hcons, IH.
Qed.

Lemma lower_upper (s : string) : lower (upper s) = lower s.
Proof.
  induction s as [ | c s IH ]; simpl; [ reflexivity | ].
  now rewrite lower_upper_char, IH.
Qed.

Lemma lower_lower (s : string) : lower (lower s) = lower s.
Proof.
  induction s as [ | c s IH ]; simpl; [ reflexivity | ].
  now rewrite lower_lower_char, IH.
Qed.

Lemma clean_upper (text : string) : clean (upper text) = clean text.
Proof.
  unfold clean.
  rewrite (remove_char_map upper_char "," upper comma_upper_char) by reflexivity.
  rewrite (remove_char_map upper_char "$" upper dollar_upper_char) by reflexivity.
  apply lower_upper.
Qed.

Lemma clean_lower (text : string) : clean (lower text) = clean text.
Proof.
  unfold clean.
  rewrite (remove_char_map lower_char "," lower comma_lower_char) by reflexivity.
  rewrite (remove_char_map lower_char "$" lower dollar_lower_char) by reflexivity.
  apply lower_lower.
Qed.

(** X2.  [parse_amount] does not see the case of the text: the upper-cased
    and the lower-cased text give the amount the text gives. *)
Theorem parse_amount_ignores_case (word_to_num : string -> result float) (text : string) :
  parse_amount word_to_num (upper text) = parse_amount word_to_num text
  /\ parse_amount word_to_num (lower text) = parse_amount word_to_num text.
Proof.
  unfold parse_amount. rewrite clean_upper, clean_lower.
  destruct text; split; reflexivity.
Qed.

Section Dates.

Variable word_to_num : string -> result float.
Variable dateparser_parse : string -> option preference -> datetime -> result (option datetime).
Variable add_days : datetime -> Z -> datetime.

Notation parse_date' := (parse_date dateparser_parse add_days).

(** X3.  For a text with [next] and none of [yesterday], [tomorrow], [last]
    and [ago], the future-biased resolver is asked first and the unbiased
    one when it finds nothing; today is the answer when neither finds a date
    or when a resolver raises. *)
Theorem parse_date_future_then_general (now : datetime) (text : string) :
  contains "yesterday" (lower text) = false ->
  contains "tomorrow" (lower text) = false ->
  contains "last" (lower text) = false ->
  contains "ago" (lower text) = false ->
  contains "next" (lower text) = true ->
  parse_date' now text =
  match dateparser_parse text (Some Future) now with
  | Ok (Some parsed) => parsed
  | Ok None =>
      match dateparser_parse text None now with
      | Ok (Some parsed) => parsed
      | Ok None => now
      | Raise => now
      end
  | Raise => now
  end.
Proof.
  intros Hy Ht Hl Ha Hn. unfold parse_date.
  assert (E : is_empty text = false).
  { rewrite <- DateSpec.lower_nonempty. now apply (DateSpec.contains_nonempty "next"). }
  rewrite E. cbv zeta. rewrite Hy, Ht, Hl, Ha, Hn. cbn [orb].
  destruct (dateparser_parse text (Some Future) now) as [ [ d | ] | ]; reflexivity.
Qed.

(** X4.  For a non-empty text with none of the five keywords only the
    unbiased resolver is asked, once; today is the answer when it finds
    nothing or raises. *)
Theorem parse_date_general_only (now : datetime) (text : string) :
  text <> EmptyString ->
  contains "yesterday" (lower text) = false ->
  contains "tomorrow" (lower text) = false ->
  contains "last" (lower text) = false ->
  contains "ago" (lower text) = false ->
  contains "next" (lower text) = false ->
  parse_date' now text =
  match dateparser_parse text None now with
  | Ok (Some parsed) => parsed
  | Ok None => now
  | Raise => now
  end.
Proof.
  intros Hne Hy Ht Hl Ha Hn. unfold parse_date.
  destruct text as [ | c text ]; [ congruence | ].
  cbn [is_empty]. cbv zeta. rewrite Hy, Ht, Hl, Ha, Hn. reflexivity.
Qed.

(** X5.  Whatever the text and the resolver, [parse_date] returns now, now
    minus one day, now plus one day, or a date the resolver gave for this
    very text with now as its base. *)
Theorem parse_date_range (now : datetime) (text : string) :
  let result := parse_date' now text in
  result = now
  \/ result = add_days now (-1)
  \/ result = add_days now 1
  \/ exists p : option preference, dateparser_parse text p now = Ok (Some result).
Proof.
  unfold parse_date. destruct (is_empty text); [ now left | ]. cbv zeta.
  destruct (contains "yesterday" (lower text)); [ right; now left | ].
  destruct (contains "tomorrow" (lower text)); [ right; right; now left | ].
  destruct (contains "last" (lower text) || contains "ago" (lower text)).
  - destruct (dateparser_parse text (Some Past) now) as [ [ d | ] | ] eqn:E; simpl.
    + right. right. right. now exists (Some Past).
    + destruct (dateparser_parse text None now) as [ [ d | ] | ] eqn:E'; simpl; auto.
      right. right. right. now exists None.
    + now left.
  - destruct (contains "next" (lower text)).
    + destruct (dateparser_parse text (Some Future) now) as [ [ d | ] | ] eqn:E; simpl.
      * right. right. right. now exists (Some Future).
      * destruct (dateparser_parse text None now) as [ [ d | ] | ] eqn:E'; simpl; auto.
        right. right. right. now exists None.
      * now left.
    + simpl.
      destruct (dateparser_parse text None now) as [ [ d | ] | ] eqn:E'; simpl; auto.
      right. right. right. now exists None.
Qed.

(** X6.  A parse miss lowers the confidence: for a text with no digit that
    is empty or in which the written-number library finds no number,
    [parse_expense] reports the amount [0.0] and the confidence [0.5], and
    keeps the text. *)
Theorem parse_expense_miss (now : datetime) (text : string) :
  any_char is_digit text = false ->
  text = EmptyString \/ word_to_num (clean text) = Raise ->
  let parsed := parse_expense word_to_num dateparser_parse add_days now text in
  detected_amount parsed = 0%float
  /\ confidence parsed = 0.5%float
  /\ raw_text parsed = text.
Proof.
  intros Hd Hmiss.
  assert (E : parse_amount word_to_num text = 0%float).
  { unfold parse_amount. destruct Hmiss as [ -> | Hw ]; [ reflexivity | ].
    destruct (is_empty text); [ reflexivity | ]. cbv zeta.
    now rewrite (search_no_digit _ (AmountSpec.clean_no_digit text Hd)), Hw. }
  unfold parse_expense. cbn [detected_amount confidence raw_text]. rewrite E.
  repeat split.
Qed.

End Dates.

Lemma parse_date_future_then_general_witness :
  parse_date resolves_unbiased shift_day noon "Will pay next Monday"
  = mkDatetime 2025 10 10 0 0 0 0.
Proof.
  rewrite (parse_date_future_then_general resolves_unbiased shift_day noon
             "Will pay next Monday" eq_refl eq_refl eq_refl eq_refl eq_refl).
  reflexivity.
Defined.

Lemma parse_date_general_only_witness :
  parse_date resolves_nothing shift_day noon "Bought groceries" = noon.
Proof.
  rewrite (parse_date_general_only resolves_nothing shift_day noon "Bought groceries");
    solve [ reflexivity | discriminate ].
Defined.

Lemma parse_expense_miss_witness :
  confidence (parse_expense knows_twenty resolves_nothing shift_day noon
                "Went shopping yesterday") = 0.5%float.
Proof.
  apply (parse_expense_miss knows_twenty resolves_nothing shift_day noon
           "Went shopping yesterday" eq_refl).
  right. reflexivity.
Defined.

End ParserExtra.

(* ================================================================== *)
(** * More about the aggregator *)

Module AnalyzerExtra.

Import Datetime Models ExcelStorage ExpenseAnalyzer ExpenseController.
Import Statements Examples FloatFacts AnalyzerFacts StorageFacts.

(** ** The order of datetimes *)

Lemma lex_compare_refl (a : list nat) : lex_compare a a = Eq.
Proof.
  induction a as [ | x a IH ]; simpl; [ reflexivity | ].
  now rewrite Nat.compare_refl.
Qed.

Lemma lex_compare_trans (a : list nat) :
  forall b c : list nat,
    lex_compare a b <> Gt -> lex_compare b c <> Gt -> lex_compare a c <> Gt.
Proof.
  induction a as [ | x a IH ]; intros [ | y b ] [ | z c ]; simpl; try congruence.
  destruct (Nat.compare_spec x y), (Nat.compare_spec y z), (Nat.compare_spec x z);
    subst; try congruence; try lia; eauto.
Qed.

Lemma datetime_le_refl (t : datetime) : datetime_le t t.
Proof.
  unfold datetime_le, datetime_leb. now rewrite lex_compare_refl.
Qed.

Lemma datetime_le_iff (a b : datetime) :
  datetime_le a b <-> lex_compare (fields a) (fields b) <> Gt.
Proof.
  unfold datetime_le, datetime_leb.
  destruct (lex_compare (fields a) (fields b)); split; congruence.
Qed.

Lemma datetime_le_trans (a b c : datetime) :
  datetime_le a b -> datetime_le b c -> datetime_le a c.
Proof.
  rewrite !datetime_le_iff. apply lex_compare_trans.
Qed.

Lemma in_range_iff (s e : datetime) (x : Expense) :
  in_range s e x = true <-> datetime_le s (date x) /\ datetime_le (date x) e.
Proof.
  unfold in_range, datetime_le. apply andb_true_iff.
Qed.

(** X7.  [filter_by_date_range] includes both ends: a record dated exactly
    at the start or at the end of a range is returned.  A range whose end is
    before its start returns nothing. *)
Theorem filter_by_date_range_ends (expenses : list Expense) (start_date end_date : datetime) :
  (forall exp : Expense,
      In exp expenses ->
      datetime_le start_date end_date ->
      date exp = start_date \/ date exp = end_date ->
      In exp (filter_by_date_range expenses start_date end_date))
  /\ (datetime_leb start_date end_date = false ->
      filter_by_date_range expenses start_date end_date = []).
Proof.
  split.
  - intros exp Hin Hle Hd. apply filter_In. split; [ exact Hin | ].
    apply (in_range_iff start_date end_date exp).
    destruct Hd as [ -> | -> ]; split; auto using datetime_le_refl.
  - intros Hlt. unfold filter_by_date_range.
    induction expenses as [ | x l IH ]; simpl; [ reflexivity | ].
    destruct (datetime_leb start_date (date x) && datetime_leb (date x) end_date) eqn:E.
    + apply (in_range_iff start_date end_date x) in E as [ H1 H2 ].
      pose proof (datetime_le_trans _ _ _ H1 H2) as H. unfold datetime_le in H. congruence.
    + exact IH.
Qed.

Lemma filter_by_date_range_ends_witness :
  In (nth 1 sample_expenses lunch)
    (filter_by_date_range sample_expenses (on_day 11) (on_day 12)).
Proof.
  apply (proj1 (filter_by_date_range_ends sample_expenses (on_day 11) (on_day 12))).
  - right. left. reflexivity.
  - reflexivity.
  - left. reflexivity.
Defined.

(** X8.  Narrowing a range: filtering the result of one range by a range
    inside it gives what filtering the original list by the inner range
    gives, in the same order. *)
Theorem filter_by_date_range_nested (expenses : list Expense)
  (start0 end0 start1 end1 : datetime) :
  datetime_le start0 start1 ->
  datetime_le end1 end0 ->
  filter_by_date_range (filter_by_date_range expenses start0 end0) start1 end1
  = filter_by_date_range expenses start1 end1.
Proof.
  intros Hs He. unfold filter_by_date_range.
  induction expenses as [ | x l IH ]; simpl; [ reflexivity | ].
  fold (in_range start0 end0 x). fold (in_range start1 end1 x).
  destruct (in_range start1 end1 x) eqn:E1.
  - assert (E0 : in_range start0 end0 x = true).
    { apply in_range_iff in E1 as [ H1 H2 ]. apply in_range_iff.
      split; eauto using datetime_le_trans. }
    rewrite E0. simpl. fold (in_range start1 end1 x). rewrite E1. now rewrite IH.
  - destruct (in_range start0 end0 x); simpl.
    + fold (in_range start1 end1 x). rewrite E1. exact IH.
    + exact IH.
Qed.

Lemma filter_by_date_range_nested_witness :
  filter_by_date_range
    (filter_by_date_range sample_expenses (on_day 10) (on_day 12)) (on_day 11) (on_day 12)
  = filter_by_date_range sample_expenses (on_day 11) (on_day 12).
Proof.
  apply (filter_by_date_range_nested sample_expenses
           (on_day 10) (on_day 12) (on_day 11) (on_day 12)); reflexivity.
Defined.

(** ** Counts and signs *)

Lemma records_of_present (c : value) (l : list Expense) :
  In c (map category l) -> 1 <= List.length (records_of c l).
Proof.
  intros H. apply in_map_iff in H as (e & <- & He).
  assert (Hin : In e (records_of (category e) l)).
  { apply filter_In. split; [ exact He | apply value_eqb_refl ]. }
  destruct (records_of (category e) l); [ destruct Hin | simpl; lia ].
Qed.

Lemma length_le_list_sum (xs : list nat) :
  Forall (fun n => 1 <= n) xs -> List.length xs <= list_sum xs.
Proof.
  induction 1; simpl; lia.
Qed.

Lemma totals_count_positive (merge : merge_sort) (l : list Expense) :
  Forall (fun ct => 1 <= count ct) (calculate_category_totals merge l).
Proof.
  apply Forall_forall. intros ct Hct.
  destruct (totals_entry merge l ct Hct) as [ _ -> ].
  apply records_of_present, (totals_categories merge). now apply in_map.
Qed.

(** X9.  Every entry of [calculate_category_totals] counts at least one
    record, there are at most as many entries as records, and the result is
    empty exactly when the input is. *)
Theorem category_totals_sizes (merge : merge_sort) (l : list Expense) :
  let out := calculate_category_totals merge l in
  Forall (fun ct => 1 <= count ct) out
  /\ List.length out <= List.length l
  /\ (out = [] <-> l = []).
Proof.
  intros out. subst out.
  pose proof (totals_count_positive merge l) as Hpos.
  pose proof (totals_counts merge l) as Hsum.
  split; [ exact Hpos | split ].
  - rewrite <- Hsum. rewrite <- (length_map count).
    apply length_le_list_sum. now apply Forall_map.
  - split.
    + intros E. rewrite E in Hsum. simpl in Hsum.
      destruct l; [ reflexivity | discriminate ].
    + intros ->. reflexivity.
Qed.

(** X10.  Amounts that are not negative keep the aggregates so: when every
    amount is a number [>= 0.0], so are the total spending and the total of
    every category; no NaN and no negative total comes out. *)
Theorem aggregates_nonneg (merge : merge_sort) (l : list Expense) :
  Forall (fun e => nonneg (amount e)) l ->
  nonneg (get_total_spending l)
  /\ Forall (fun ct => nonneg (total ct)
                       /\ PrimFloat.is_nan (total ct) = false)
       (calculate_category_totals merge l).
Proof.
  intros H. split.
  - unfold get_total_spending. apply sum_nonneg. now apply Forall_map.
  - apply (Permutation_Forall (Permutation_sym (totals_perm merge l))).
    generalize (items_nonneg l H). apply Forall_impl.
    intros ct Hct. split; [ exact Hct | ].
    unfold nonneg in Hct. unfold PrimFloat.is_nan.
    rewrite leb_spec in Hct. rewrite eqb_spec.
    destruct (Prim2SF (total ct)) as [ [ | ] | [ | ] | | [ | ] m e ]; try discriminate;
      try reflexivity.
    unfold SFeqb. simpl. rewrite Z.compare_refl, Pos.compare_cont_refl. reflexivity.
Qed.

Lemma aggregates_nonneg_witness :
  nonneg (get_total_spending large_and_small).
Proof.
  apply (aggregates_nonneg stable_merge large_and_small). repeat constructor.
Defined.

Section Dashboard.

Variable File : Type.
Variable read_excel : File -> result DataFrame.
Variable float_of_str : string -> result float.
Variable storage_path : string.
Variable merge : merge_sort.

Notation dashboard :=
  (get_dashboard_data File read_excel float_of_str storage_path merge).

(** X11.  The dashboard of a storage whose file is missing or unreadable is
    empty: no expenses, no category totals, [0.0] spent, count [0].  In every
    case the expense count is the number of expenses and the counts of the
    category totals add up to it. *)
Theorem dashboard_counts (now : datetime) (fs : filesystem File) :
  (fs storage_path = None \/
   (exists f, fs storage_path = Some f /\ read_excel f = Raise) ->
   dashboard now fs = ([], [], 0%float, 0))
  /\ (let '(expenses, category_totals, _, expense_count) := dashboard now fs in
      expense_count = List.length expenses
      /\ list_sum (map count category_totals) = expense_count).
Proof.
  split.
  - intros H. unfold get_dashboard_data.
    assert (E : load_expenses File read_excel float_of_str now storage_path fs = []).
    { unfold load_expenses. destruct H as [ -> | (f & -> & ->) ]; reflexivity. }
    now rewrite E.
  - unfold get_dashboard_data. split; [ reflexivity | apply totals_counts ].
Qed.

End Dashboard.

Lemma dashboard_counts_witness :
  get_dashboard_data DataFrame plain_read no_text_amount "expenses.xlsx" stable_merge noon
    no_files
  = ([], [], 0%float, 0).
Proof.
  apply (proj1 (dashboard_counts DataFrame plain_read no_text_amount "expenses.xlsx"
                  stable_merge noon no_files)).
  left. reflexivity.
Defined.

End AnalyzerExtra.

(* ================================================================== *)
(** * More about the storage and the controller *)

Module StorageExtra.

Import Text Datetime Models ExcelStorage ExpenseAnalyzer.
Import Statements Examples DatetimeFacts AnalyzerFacts StorageFacts.

Lemma dict_get_absent (key : string) (v : value) (d : pydict) :
  has_key key d = false -> dict_get key v d = v.
Proof.
  induction d as [ | [ k x ] d IH ]; simpl; [ reflexivity | ].
  destruct (String.eqb k key); simpl; [ discriminate | exact IH ].
Qed.

Lemma passes_kept (v : value) : passes v = true <-> kept v.
Proof.
  split; [ apply kept_cell | ].
  intros [ Hn Ht ]. unfold passes. rewrite Hn. simpl.
  destruct v as [ s | x ]; simpl; [ | reflexivity ].
  apply negb_true_iff, String.eqb_neq. now apply Ht.
Qed.

Lemma select_filter {A : Type} (f g : A -> bool) (xs : list A) :
  select (zip_with andb (map f xs) (map g xs)) xs = filter (fun x => f x && g x) xs.
Proof.
  induction xs as [ | x xs IH ]; simpl; [ reflexivity | ].
  destruct (f x && g x); now rewrite IH.
Qed.

Lemma filter_map_comm {A B : Type} (h : A -> B) (p : B -> bool) (xs : list A) :
  filter p (map h xs) = map h (filter (fun x => p (h x)) xs).
Proof.
  induction xs as [ | x xs IH ]; simpl; [ reflexivity | ].
  destruct (p (h x)); simpl; now rewrite IH.
Qed.

Lemma filter_all {A : Type} (p : A -> bool) (xs : list A) :
  Forall (fun x => p x = true) xs -> filter p xs = xs.
Proof.
  induction 1 as [ | x xs Hx Hxs IH ]; simpl; [ reflexivity | ].
  now rewrite Hx, IH.
Qed.

Lemma traverse_raise {A B : Type} (f : A -> result B) (xs : list A) (x : A) :
  In x xs -> f x = Raise -> traverse f xs = Raise.
Proof.
  induction xs as [ | y xs IH ]; intros Hin Hx; simpl; [ destruct Hin | ].
  destruct Hin as [ -> | Hin ].
  - now rewrite Hx.
  - destruct (f y); simpl; [ | reflexivity ]. now rewrite (IH Hin Hx).
Qed.

Section Storage.

Variable File : Type.
Variable read_excel : File -> result DataFrame.
Variable to_excel : DataFrame -> result File.
Variable float_of_str : string -> result float.

Notation load := (load_expenses File read_excel float_of_str).
Notation save := (save_expenses File to_excel).

(** X12.  [from_dict] and missing keys.  Without a [Date/Time] key it
    raises: the default is an empty [str], which [strptime] rejects.  When it
    returns, a [Date/Time] value that is not text gives the current time, a
    missing [Amount ($)] gives [0.0], a missing [Notes] gives the empty
    text, and a missing [Category] gives [Uncategorized]. *)
Theorem from_dict_defaults (now : datetime) (data : pydict) :
  (has_key "Date/Time" data = false -> from_dict float_of_str now data = Raise)
  /\ (forall e : Expense,
        from_dict float_of_str now data = Ok e ->
        ((forall x, dict_get "Date/Time" (VStr EmptyString) data = VFloat x -> date e = now)
         /\ (has_key "Amount ($)" data = false -> amount e = 0%float)
         /\ (has_key "Notes" data = false -> notes e = VStr EmptyString)
         /\ (has_key "Category" data = false -> category e = VStr "Uncategorized"))).
Proof.
  split.
  - intros H. unfold from_dict. now rewrite (dict_get_absent _ _ _ H).
  - intros e. unfold from_dict.
    destruct (dict_get "Date/Time" (VStr EmptyString) data) as [ s | x ] eqn:Ed.
    + destruct (strptime s) as [ t | ]; simpl; [ | discriminate ].
      destruct (to_float float_of_str _) as [ a | ] eqn:Ea; simpl; [ | discriminate ].
      intros [= <-]. simpl. repeat split.
      * discriminate.
      * intros H. rewrite (dict_get_absent _ _ _ H) in Ea. now injection Ea as <-.
      * intros H. now rewrite (dict_get_absent _ _ _ H).
      * intros H. now rewrite (dict_get_absent _ _ _ H).
    + simpl.
      destruct (to_float float_of_str _) as [ a | ] eqn:Ea; simpl; [ | discriminate ].
      intros [= <-]. simpl. repeat split.
      * intros H. rewrite (dict_get_absent _ _ _ H) in Ea. now injection Ea as <-.
      * intros H. now rewrite (dict_get_absent _ _ _ H).
      * intros H. now rewrite (dict_get_absent _ _ _ H).
Qed.

(** X13.  One bad row empties the load.  When a row that passed the
    category filter cannot be turned into an expense (its date text is not
    [%Y-%m-%d], or its amount is text that is not a number),
    [load_expenses] returns the empty list, not the other rows. *)
Theorem load_expenses_all_or_nothing (now : datetime) (path : string)
  (fs : filesystem File) (f : File) (df df' : DataFrame) (row : pydict) :
  fs path = Some f ->
  read_excel f = Ok df ->
  drop_total_rows df = Ok df' ->
  In row (iterrows df') ->
  from_dict float_of_str now row = Raise ->
  load now path fs = [].
Proof.
  intros Hfs Hread Hdrop Hin Hrow. unfold load_expenses.
  rewrite Hfs, Hread. simpl. rewrite Hdrop. simpl.
  now rewrite (traverse_raise _ _ row Hin Hrow).
Qed.

(** X14.  A sheet without a [Category] column, such as the sheet
    [clear_all] writes, and a non-empty sheet whose [Category] column holds
    no text at all, load as the empty list: the filter raises and the
    handler returns [[]]. *)
Theorem load_expenses_without_categories (now : datetime) (path : string)
  (fs : filesystem File) (f : File) (df : DataFrame) :
  fs path = Some f ->
  read_excel f = Ok df ->
  index_of "Category" (columns df) = None
  \/ (exists col, column "Category" df = Ok col
                  /\ col <> [] /\ existsb is_str col = false) ->
  load now path fs = [].
Proof.
  intros Hfs Hread H. unfold load_expenses. rewrite Hfs, Hread. simpl.
  unfold drop_total_rows. destruct H as [ H | (col & Hcol & Hne & Hnum) ].
  - unfold column. now rewrite H.
  - rewrite Hcol. simpl. unfold str_upper.
    destruct col as [ | v col ]; [ congruence | ]. now rewrite Hnum.
Qed.

(** Loading a file whose frame is the one [save_expenses] builds for
    records of which at least one has a text category. *)
Lemma load_saved_frame_filtered (now : datetime) (path : string) (fs : filesystem File)
  (f : File) (rs : list Expense) :
  Forall (fun e => storable (date e)) rs ->
  existsb is_str (map category rs) = true ->
  fs path = Some f ->
  read_excel f = Ok (DataFrame_of_dicts (map to_dict rs)) ->
  load now path fs = map at_midnight (filter (fun e => passes (category e)) rs).
Proof.
  intros Hvalid Hstr Hfs Hread. unfold load_expenses. rewrite Hfs, Hread. simpl.
  destruct rs as [ | e rs ]; [ discriminate | ].
  rewrite frame_of_records. unfold cells.
  set (row := fun e : Expense =>
                [ VStr (strftime (date e)); category e; VFloat (amount e); notes e ]).
  set (rs' := e :: rs) in *.
  unfold drop_total_rows, column. cbn [columns rows index_of String.eqb Ascii.eqb
                                        Bool.eqb option_map bind].
  set (xs := map row rs').
  assert (Hcol : map (fun r => nth 1 r NaN) xs = map category rs').
  { unfold xs. rewrite map_map. reflexivity. }
  assert (Hup : str_upper (map (fun r => nth 1 r NaN) xs)
                = Ok (map upper_cell (map (fun r => nth 1 r NaN) xs))).
  { rewrite Hcol. unfold str_upper. rewrite Hstr.
    unfold rs'. reflexivity. }
  rewrite Hup. cbn [bind]. rewrite !map_map.
  rewrite (select_filter (fun r => notna (nth 1 r NaN))
             (fun r => ne_TOTAL (upper_cell (nth 1 r NaN)))).
  unfold iterrows, xs. cbn [columns rows].
  rewrite (filter_map_comm row). rewrite map_map.
  rewrite (traverse_map _ _ at_midnight).
  - reflexivity.
  - intros e0 He0. apply filter_In in He0 as [ He0 _ ].
    change (row_dict _ (row e0)) with (to_dict e0).
    apply from_dict_to_dict.
    revert e0 He0. now apply Forall_forall.
Qed.

(** X15.  Saving then loading, with the filter.  For records dated in the
    calendar with four-digit years, of which at least one has a text
    category, and a spreadsheet layer that returns the frame it was given,
    loading after [save_expenses] returns, in order and at midnight, exactly
    the saved records whose category passes the filter of [load_expenses]: a
    saved record labelled TOTAL, or with a missing category, is in the file
    and is not returned. *)
Theorem save_then_load_filtered (now : datetime) (path : string)
  (fs : filesystem File) (rs : list Expense) (f : File) :
  Forall (fun e => storable (date e)) rs ->
  existsb is_str (map category rs) = true ->
  to_excel (DataFrame_of_dicts (map to_dict rs)) = Ok f ->
  read_excel f = Ok (DataFrame_of_dicts (map to_dict rs)) ->
  exists fs' : filesystem File,
    save path rs fs = Ok fs'
    /\ fs' path = Some f
    /\ load now path fs' = map at_midnight (filter (fun e => passes (category e)) rs).
Proof.
  intros Hvalid Hstr Hwrite Hread.
  assert (Hpath : write_file File path f fs path = Some f).
  { unfold write_file. now rewrite String.eqb_refl. }
  exists (write_file File path f fs). split; [ | split ].
  - unfold save_expenses. now rewrite Hwrite.
  - exact Hpath.
  - now apply (load_saved_frame_filtered now path _ f rs).
Qed.

(** Loading a file whose frame is that of records that pass the filter
    followed by one more record with a text category. *)
Lemma load_appended (now : datetime) (path : string) (fs : filesystem File) (f : File)
  (rs : list Expense) (expense : Expense) (c : string) :
  Forall (fun e => storable (date e)) (rs ++ [expense]) ->
  Forall (fun e => kept (category e)) rs ->
  category expense = VStr c ->
  fs path = Some f ->
  read_excel f = Ok (DataFrame_of_dicts (map to_dict (rs ++ [expense]))) ->
  load now path fs
  = map at_midnight rs
    ++ (if String.eqb (Text.upper c) "TOTAL" then [] else [at_midnight expense]).
Proof.
  intros Hdates Hkept Hcat Hfs Hread.
  rewrite (load_saved_frame_filtered now path fs f (rs ++ [expense])).
  - rewrite filter_app, map_app. f_equal.
    + f_equal. apply filter_all. revert Hkept. apply Forall_impl.
      intros e. apply passes_kept.
    + simpl. unfold passes. rewrite Hcat. simpl.
      destruct (String.eqb (Text.upper c) "TOTAL"); reflexivity.
  - exact Hdates.
  - rewrite map_app, existsb_app. simpl. rewrite Hcat. simpl. apply orb_true_r.
  - exact Hfs.
  - exact Hread.
Qed.

(** X16.  [add_expense] appends.  When the records loaded before and the new
    expense are dated in the calendar with four-digit years, the new expense
    has a text category, and the spreadsheet layer returns the frame it was
    given, loading after [add_expense] returns what was loaded before, at
    midnight, followed by the new expense at midnight; a new expense labelled
    TOTAL is written and not returned. *)
Theorem add_expense_appends (now now' : datetime) (path : string)
  (fs : filesystem File) (expense : Expense) (c : string) (f : File) :
  let loaded := load now path fs in
  Forall (fun e => storable (date e)) (loaded ++ [expense]) ->
  category expense = VStr c ->
  to_excel (DataFrame_of_dicts (map to_dict (loaded ++ [expense]))) = Ok f ->
  read_excel f = Ok (DataFrame_of_dicts (map to_dict (loaded ++ [expense]))) ->
  exists fs' : filesystem File,
    ExcelStorage.add_expense File read_excel to_excel float_of_str now path expense fs
    = Ok fs'
    /\ load now' path fs'
       = map at_midnight loaded
         ++ (if String.eqb (Text.upper c) "TOTAL" then [] else [at_midnight expense]).
Proof.
  intros loaded Hdates Hcat Hwrite Hread.
  exists (write_file File path f fs). split.
  - unfold ExcelStorage.add_expense, save_expenses. fold loaded. now rewrite Hwrite.
  - apply (load_appended now' path _ f loaded expense c); auto.
    + apply load_expenses_kept.
    + unfold write_file. now rewrite String.eqb_refl.
Qed.

End Storage.

Section Controller.

Variable File : Type.
Variable read_excel : File -> result DataFrame.
Variable to_excel : DataFrame -> result File.
Variable float_of_str : string -> result float.
Variable format_workbook : File -> result File.
Variable storage_path : string.
Variable word_to_num : string -> result float.
Variable dateparser_parse :
  string -> option ExpenseParser.preference -> datetime -> result (option datetime).
Variable add_days : datetime -> Z -> datetime.

Notation all_expenses :=
  (ExpenseController.get_all_expenses File read_excel float_of_str storage_path).
Notation create :=
  (ExpenseController.parse_and_create_expense word_to_num dateparser_parse add_days).

(** X17.  [clear_all_expenses] empties the record set: with a spreadsheet
    layer that returns the frame it was given, [get_all_expenses] returns
    the empty list afterwards, whatever was stored before. *)
Theorem clear_all_expenses_empties (now : datetime) (fs : filesystem File) (f : File) :
  to_excel (DataFrame_of_dicts []) = Ok f ->
  read_excel f = Ok (DataFrame_of_dicts []) ->
  exists fs' : filesystem File,
    ExpenseController.clear_all_expenses File to_excel storage_path fs = Ok fs'
    /\ all_expenses now fs' = [].
Proof.
  intros Hwrite Hread. exists (write_file File storage_path f fs). split.
  - unfold ExpenseController.clear_all_expenses, clear_all, save_expenses.
    simpl map. now rewrite Hwrite.
  - unfold ExpenseController.get_all_expenses, load_expenses, write_file.
    now rewrite String.eqb_refl, Hread.
Qed.

(** X18.  Adding through the controller.  The expense the controller
    creates has the text as its notes, the given category, the manual amount
    and date when they are given ([0.0] included) and the parsed ones
    otherwise.  When the former records and the new expense are dated in the
    calendar with four-digit years, the category is a text other than TOTAL
    and the spreadsheet layer returns the frame it was given,
    [get_all_expenses] afterwards returns the former list followed by the new
    expense, both at midnight. *)
Theorem controller_add_expense_appends (now now' : datetime) (text c : string)
  (manual_amount : option float) (manual_date : option datetime)
  (fs : filesystem File) (f : File) :
  let expense := create now text (VStr c) manual_amount manual_date in
  let former := all_expenses now fs in
  Forall (fun e => storable (date e)) (former ++ [expense]) ->
  Text.upper c <> "TOTAL"%string ->
  to_excel (DataFrame_of_dicts (map to_dict (former ++ [expense]))) = Ok f ->
  read_excel f = Ok (DataFrame_of_dicts (map to_dict (former ++ [expense]))) ->
  (exists fs' : filesystem File,
      ExpenseController.add_expense File read_excel to_excel float_of_str storage_path
        word_to_num dateparser_parse add_days now text (VStr c) manual_amount manual_date fs
      = Ok (expense, fs')
      /\ all_expenses now' fs' = map at_midnight former ++ [at_midnight expense])
  /\ notes expense = VStr text
  /\ category expense = VStr c
  /\ (forall a, manual_amount = Some a -> amount expense = a)
  /\ (manual_amount = None ->
      amount expense = ExpenseParser.parse_amount word_to_num text)
  /\ (forall d, manual_date = Some d -> date expense = d)
  /\ (manual_date = None ->
      date expense = ExpenseParser.parse_date dateparser_parse add_days now text).
Proof.
  intros expense former Hdates Hc Hwrite Hread.
  split.
  - subst former. unfold ExpenseController.get_all_expenses in *.
    exists (write_file File storage_path f fs). split.
    + unfold ExpenseController.add_expense, ExcelStorage.add_expense, save_expenses.
      fold expense. now rewrite Hwrite.
    + rewrite (load_appended File read_excel float_of_str now' storage_path _ f
                 (load_expenses File read_excel float_of_str now storage_path fs)
                 expense c); auto.
      * apply String.eqb_neq in Hc. now rewrite Hc.
      * apply load_expenses_kept.
      * unfold write_file. now rewrite String.eqb_refl.
  - split; [ reflexivity | split; [ reflexivity | ] ].
    split; [ now intros a -> | split; [ now intros -> | ] ].
    split; [ now intros d -> | now intros -> ].
Qed.

End Controller.

Lemma from_dict_defaults_witness :
  from_dict no_text_amount noon [ ("Category", VStr "Food"); ("Amount ($)", VFloat 5) ]%string
  = Raise.
Proof.
  apply (proj1 (from_dict_defaults no_text_amount noon
                  [ ("Category", VStr "Food"); ("Amount ($)", VFloat 5) ]%string)).
  reflexivity.
Defined.

Lemma load_expenses_all_or_nothing_witness :
  load_expenses DataFrame plain_read no_text_amount noon "expenses.xlsx" stored_bad_date = [].
Proof.
  apply (load_expenses_all_or_nothing DataFrame plain_read no_text_amount noon
           "expenses.xlsx" stored_bad_date sheet_with_bad_date sheet_with_bad_date
           sheet_with_bad_date
           (row_dict (columns sheet_with_bad_date)
              [ VStr "14/10/2025"; VStr "Gas"; VFloat 40; VStr "bad date" ]));
    try reflexivity.
  right. left. reflexivity.
Defined.

Lemma load_expenses_without_categories_witness :
  load_expenses DataFrame plain_read no_text_amount noon "expenses.xlsx"
    (write_file DataFrame "expenses.xlsx" sheet_with_numeric_categories no_files) = [].
Proof.
  apply (load_expenses_without_categories DataFrame plain_read no_text_amount noon
           "expenses.xlsx" _ sheet_with_numeric_categories sheet_with_numeric_categories);
    try reflexivity.
  right. exists [ VFloat 1%float ]. repeat split. discriminate.
Defined.

Lemma save_then_load_filtered_witness :
  exists fs' : filesystem DataFrame,
    save_expenses DataFrame plain_write "expenses.xlsx" food_and_total no_files = Ok fs'
    /\ fs' "expenses.xlsx"%string = Some (DataFrame_of_dicts (map to_dict food_and_total))
    /\ load_expenses DataFrame plain_read no_text_amount noon "expenses.xlsx" fs'
       = map at_midnight (filter (fun e => passes (category e)) food_and_total).
Proof.
  apply (save_then_load_filtered DataFrame plain_read plain_write no_text_amount noon
           "expenses.xlsx" no_files food_and_total
           (DataFrame_of_dicts (map to_dict food_and_total)));
    try reflexivity.
  storable_dates.
Defined.

Lemma add_expense_appends_witness :
  exists fs' : filesystem DataFrame,
    ExcelStorage.add_expense DataFrame plain_read plain_write no_text_amount noon
      "expenses.xlsx" lunch stored_sample = Ok fs'
    /\ load_expenses DataFrame plain_read no_text_amount evening "expenses.xlsx" fs'
       = map at_midnight
           (load_expenses DataFrame plain_read no_text_amount noon "expenses.xlsx"
              stored_sample)
         ++ [at_midnight lunch].
Proof.
  apply (add_expense_appends DataFrame plain_read plain_write no_text_amount noon evening
           "expenses.xlsx" stored_sample lunch "Food"
           (DataFrame_of_dicts
              (map to_dict
                 (load_expenses DataFrame plain_read no_text_amount noon "expenses.xlsx"
                    stored_sample ++ [lunch]))));
    try reflexivity.
  storable_dates.
Defined.

Lemma clear_all_expenses_empties_witness :
  exists fs' : filesystem DataFrame,
    ExpenseController.clear_all_expenses DataFrame plain_write "expenses.xlsx" stored_sample
    = Ok fs'
    /\ ExpenseController.get_all_expenses DataFrame plain_read no_text_amount
         "expenses.xlsx" noon fs' = [].
Proof.
  apply (clear_all_expenses_empties DataFrame plain_read plain_write no_text_amount
           "expenses.xlsx" noon stored_sample (DataFrame_of_dicts []));
    reflexivity.
Defined.

Lemma controller_add_expense_appends_witness :
  exists fs' : filesystem DataFrame,
    ExpenseController.add_expense DataFrame plain_read plain_write no_text_amount
      "expenses.xlsx" knows_twenty resolves_nothing shift_day noon "Lunch $15" (VStr "Food")
      None None stored_sample
    = Ok (mkExpense noon (VStr "Food") 15%float (VStr "Lunch $15"), fs')
    /\ ExpenseController.get_all_expenses DataFrame plain_read no_text_amount
         "expenses.xlsx" evening fs'
       = sample_expenses
         ++ [ mkExpense (on_day 14) (VStr "Food") 15%float (VStr "Lunch $15") ].
Proof.
  refine (proj1
            (controller_add_expense_appends DataFrame plain_read plain_write no_text_amount
               "expenses.xlsx" knows_twenty resolves_nothing shift_day noon evening
               "Lunch $15" "Food" None None stored_sample
               (DataFrame_of_dicts
                  (map to_dict
                     (sample_expenses
                      ++ [ mkExpense noon (VStr "Food") 15%float (VStr "Lunch $15") ])))
               _ _ eq_refl eq_refl)).
  - storable_dates.
  - discriminate.
Defined.

End StorageExtra.
